(** * MindMate AI: the fallback responder and the chat turn

    A shallow embedding of the chat assistant of the application:
    - [generateFallbackResponse] of the [Chatbot] component and of the
      [chatbot] edge function (the keyword responder),
    - [callChatbotAPI] and [sendMessage] of the [Chatbot] component (one
      conversation turn against the store and the remote endpoint).

    Strings are ECMAScript strings: finite sequences of UTF-16 code units.
    [String.prototype.toLowerCase] belongs to the host and is a parameter of
    the development; [toLowerCase_ascii] is its action on code units below
    128 and serves to evaluate the functions on concrete messages. *)

From Stdlib Require Import List NArith Bool Ascii String Sorted Lia.
Import ListNotations.

Local Open Scope N_scope.
Local Open Scope list_scope.

(** ** ECMAScript strings *)

Module JS.

Definition code_unit := N.
Definition jsstring := list code_unit.

(** The code units of a string literal of the source (all of them ASCII). *)
Definition units (s : string) : jsstring :=
  map N_of_ascii (list_ascii_of_string s).

(** [startsWith s t]: [t] is read at the head of [s]. *)
Fixpoint startsWith (s t : jsstring) : bool :=
  match t, s with
  | [], _ => true
  | _ :: _, [] => false
  | y :: t', x :: s' => (x =? y) && startsWith s' t'
  end.

(** [s.includes(t)]: [t] occurs in [s] at some position. *)
Fixpoint includes (s t : jsstring) : bool :=
  startsWith s t ||
  match s with
  | [] => false
  | _ :: s' => includes s' t
  end.

(** WhiteSpace and LineTerminator code units, the ones [trim] strips. *)
Definition isWhiteSpace (c : code_unit) : bool :=
  ((9 <=? c) && (c <=? 13))
  || (c =? 32) || (c =? 160) || (c =? 5760)
  || ((8192 <=? c) && (c <=? 8202))
  || (c =? 8232) || (c =? 8233) || (c =? 8239) || (c =? 8287)
  || (c =? 12288) || (c =? 65279).

Fixpoint trimStart (s : jsstring) : jsstring :=
  match s with
  | [] => []
  | c :: s' => if isWhiteSpace c then trimStart s' else s
  end.

Definition trimEnd (s : jsstring) : jsstring :=
  rev (trimStart (rev s)).

Definition trim (s : jsstring) : jsstring :=
  trimEnd (trimStart s).

(** ToBoolean on a string: the empty string is the only falsy one. *)
Definition truthy (s : jsstring) : bool :=
  match s with
  | [] => false
  | _ :: _ => true
  end.

(** Lower-casing of the code units below 128: [A]..[Z] to [a]..[z]. *)
Definition lower_unit (c : code_unit) : code_unit :=
  if (65 <=? c) && (c <=? 90) then c + 32 else c.

Definition toLowerCase_ascii (s : jsstring) : jsstring :=
  map lower_unit s.

End JS.

Import JS.

(** ** The keyword responder *)

(** The tests of the [if]/[else if] chain, shared by the two copies of the
    responder: both read the same trigger substrings in the same order. *)
Module Triggers.

Definition anxiety (lowerMessage : jsstring) : bool :=
  includes lowerMessage (units "anxious") || includes lowerMessage (units "anxiety").

Definition sadness (lowerMessage : jsstring) : bool :=
  includes lowerMessage (units "sad") || includes lowerMessage (units "depressed").

Definition stress (lowerMessage : jsstring) : bool :=
  includes lowerMessage (units "stress").

Definition sleep (lowerMessage : jsstring) : bool :=
  includes lowerMessage (units "sleep") || includes lowerMessage (units "insomnia").

Definition crisis (lowerMessage : jsstring) : bool :=
  includes lowerMessage (units "help") || includes lowerMessage (units "crisis")
  || includes lowerMessage (units "harm") || includes lowerMessage (units "suicid").

Definition gratitude (lowerMessage : jsstring) : bool :=
  includes lowerMessage (units "thank").

End Triggers.

(** The categories of canned responses. *)
Inductive category : Type :=
| Anxiety | Sadness | Stress | Sleep | Crisis | Gratitude | Default.

(** [generateFallbackResponse] of the [Chatbot] component. *)
Module Client.

Definition anxiety_text : jsstring := units
  "I understand you're feeling anxious. That's a very real experience, and it's brave of you to share it. Try this simple breathing exercise: breathe in for 4 counts, hold for 4, and exhale for 4. What specifically is making you feel anxious today?".

Definition sadness_text : jsstring := units
  "I hear that you're feeling down. These feelings are valid and you're not alone. Have you been able to talk to anyone close to you about what you're experiencing? What's been weighing on you?".

Definition stress_text : jsstring := units
  "Stress can feel overwhelming. Here are some things that might help: Take short breaks, engage in activities you enjoy, exercise even briefly, and talk to someone you trust. What's been your biggest stressor lately?".

Definition sleep_text : jsstring := units
  "Sleep difficulties can really impact how you feel overall. Try maintaining a consistent sleep schedule, avoiding screens 30 minutes before bed, and keeping your room cool and dark. Are you dealing with racing thoughts keeping you awake?".

Definition crisis_text : jsstring := units
  "I'm really glad you reached out. If you're in crisis, please contact emergency services immediately. In the US, you can call 988 (Suicide & Crisis Lifeline) or text 'HELLO' to 741741. These services are available 24/7. You matter.".

Definition gratitude_text : jsstring := units
  "You're very welcome. Reaching out and taking care of your mental health is a sign of strength. I'm here whenever you need to talk.".

Definition default_text : jsstring := units
  "Thank you for sharing that with me. I'm here to listen and support you. Could you tell me more about what's on your mind?".

Section Responder.
Variable toLowerCase : jsstring -> jsstring.

Definition generateFallbackResponse (userMessage : jsstring) : jsstring :=
  let lowerMessage := toLowerCase userMessage in
  if includes lowerMessage (units "anxious") || includes lowerMessage (units "anxiety") then
    anxiety_text
  else if includes lowerMessage (units "sad") || includes lowerMessage (units "depressed") then
    sadness_text
  else if includes lowerMessage (units "stress") then
    stress_text
  else if includes lowerMessage (units "sleep") || includes lowerMessage (units "insomnia") then
    sleep_text
  else if includes lowerMessage (units "help") || includes lowerMessage (units "crisis")
          || includes lowerMessage (units "harm") || includes lowerMessage (units "suicid") then
    crisis_text
  else if includes lowerMessage (units "thank") then
    gratitude_text
  else
    default_text.
End Responder.

(** The response of each category. *)
Definition response (c : category) : jsstring :=
  match c with
  | Anxiety => anxiety_text
  | Sadness => sadness_text
  | Stress => stress_text
  | Sleep => sleep_text
  | Crisis => crisis_text
  | Gratitude => gratitude_text
  | Default => default_text
  end.

End Client.

(** [generateFallbackResponse] of the [chatbot] edge function. *)
Module Edge.

Definition anxiety_text : jsstring := units
  "I understand you're feeling anxious. That's a very real experience, and it's brave of you to share it. Anxiety is a common response our bodies have, and there are effective techniques to manage it. Try this simple breathing exercise: breathe in for 4 counts, hold for 4, and exhale for 4. This can help calm your nervous system. What specifically is making you feel anxious today? I'm here to listen.".

Definition sadness_text : jsstring := units
  "I hear that you're feeling down, and I'm genuinely glad you reached out. These feelings are valid and you're not alone. Depression can make everything feel heavier, but remember that these feelings can change. Have you been able to talk to anyone close to you about what you're experiencing? Sometimes sharing with friends, family, or a mental health professional can really help. What's been weighing on you?".

Definition stress_text : jsstring := units
  "Stress can feel overwhelming, and I appreciate you opening up about it. Here are some things that might help: Take short breaks throughout your day to breathe and reset. Engage in activities you enjoy, even for 10 minutes. Exercise, even a short walk, can release stress-relieving endorphins. Talk to someone you trust. If stress is affecting your daily life, speaking with a professional could provide great support. What's been your biggest stressor lately?".

Definition sleep_text : jsstring := units
  "Sleep difficulties can really impact how you feel overall. Here are some science-backed suggestions: Maintain a consistent sleep schedule, avoid screens 30 minutes before bed, keep your room cool and dark, and try relaxation techniques like meditation. If sleep problems persist for weeks, it's worth discussing with a healthcare provider. Are you dealing with racing thoughts, physical restlessness, or something else keeping you awake?".

Definition crisis_text : jsstring := units
  "I'm really glad you reached out. If you're in crisis or having thoughts of self-harm, please contact emergency services immediately. In the US, you can call 988 (Suicide & Crisis Lifeline) or text 'HELLO' to 741741 (Crisis Text Line). These services are free, confidential, and available 24/7. You matter, and there are people ready to help. Would you like to talk about what's happening?".

Definition gratitude_text : jsstring := units
  "You're very welcome. Remember, reaching out and taking care of your mental health is a sign of strength, not weakness. I'm here whenever you need to talk. Don't hesitate to reach out to our community or professional mental health resources as well. How are you feeling right now?".

Definition default_text : jsstring := units
  "Thank you for sharing that with me. I'm here to listen and support you on your mental wellness journey. What you're feeling is important. Could you tell me more about what's on your mind? I'm genuinely interested in understanding your situation better.".

Section Responder.
Variable toLowerCase : jsstring -> jsstring.

Definition generateFallbackResponse (userMessage : jsstring) : jsstring :=
  let lowerMessage := toLowerCase userMessage in
  if includes lowerMessage (units "anxious") || includes lowerMessage (units "anxiety") then
    anxiety_text
  else if includes lowerMessage (units "sad") || includes lowerMessage (units "depressed") then
    sadness_text
  else if includes lowerMessage (units "stress") then
    stress_text
  else if includes lowerMessage (units "sleep") || includes lowerMessage (units "insomnia") then
    sleep_text
  else if includes lowerMessage (units "help") || includes lowerMessage (units "crisis")
          || includes lowerMessage (units "harm") || includes lowerMessage (units "suicid") then
    crisis_text
  else if includes lowerMessage (units "thank") then
    gratitude_text
  else
    default_text.
End Responder.

Definition response (c : category) : jsstring :=
  match c with
  | Anxiety => anxiety_text
  | Sadness => sadness_text
  | Stress => stress_text
  | Sleep => sleep_text
  | Crisis => crisis_text
  | Gratitude => gratitude_text
  | Default => default_text
  end.

End Edge.

(** The category a lower-cased message falls in, by the order of the chain. *)
Definition classify (lowerMessage : jsstring) : category :=
  if Triggers.anxiety lowerMessage then Anxiety
  else if Triggers.sadness lowerMessage then Sadness
  else if Triggers.stress lowerMessage then Stress
  else if Triggers.sleep lowerMessage then Sleep
  else if Triggers.crisis lowerMessage then Crisis
  else if Triggers.gratitude lowerMessage then Gratitude
  else Default.

(** ** The store and the remote endpoint *)

Definition uuid := N.
Definition timestamp := N.

Module User.
Record t : Type := { id : uuid }.
End User.

Module ChatSession.
Record t : Type := {
  id : uuid;
  user_id : uuid;
  title : jsstring;
  created_at : timestamp;
  updated_at : timestamp
}.
End ChatSession.

Module ChatMessage.
Record t : Type := {
  id : uuid;
  session_id : uuid;
  user_id : uuid;
  message : jsstring;
  is_bot : bool;
  created_at : timestamp
}.
End ChatMessage.

(** The object handed to [insert]: the columns the component fills in. The
    table completes [id] ([gen_random_uuid()]) and [created_at] ([now()]). *)
Module NewMessage.
Record t : Type := {
  session_id : uuid;
  user_id : uuid;
  message : jsstring;
  is_bot : bool
}.
End NewMessage.

(** The [role] of an entry of the conversation history. *)
Module Role.
Inductive t : Type := assistant | user.
End Role.

(** What leaves the component, in the order it happens. *)
Inductive event : Type :=
| InsertRequest (row : NewMessage.t)
| SelectRequest (sessionId : uuid)
| FetchRequest (message : jsstring) (conversationHistory : list (Role.t * jsstring))
| ConsoleError (label : jsstring).

(** The [chat_messages] table (rows in the order they were inserted), the
    clock of the store, the next identifier it hands out, and the trace of
    requests and log lines. *)
Record world : Type := {
  chat_messages : list ChatMessage.t;
  clock : timestamp;
  next_id : uuid;
  trace : list event
}.

(** The state of the [Chatbot] component: its [useState] cells and the
    [user] of the authentication context. *)
Record component : Type := {
  user_ctx : option User.t;
  sessions : list ChatSession.t;
  currentSession : option ChatSession.t;
  messages : list ChatMessage.t;
  input : jsstring;
  loading : bool;
  apiError : jsstring
}.

Record app : Type := { db : world; view : component }.

(** How the collaborators answer. An insert is accepted after some time has
    passed on the clock of the store, or refused with an error. *)
Inductive insert_outcome : Type :=
| Inserted (elapsed : N)
| InsertError.

Inductive select_outcome : Type :=
| Selected
| SelectError.

(** The body of an HTTP response as [response.json()] and [data.response]
    see it: not JSON at all (the promise rejects), the JSON value [null]
    (reading a property of it throws), or any other JSON value with its
    [response] property, [None] when the property is absent or null. The
    declared result type [Promise<string>] makes a present property a
    string. *)
Inductive body : Type :=
| NotJson
| JsonNull
| Json (response : option jsstring).

Inductive fetch_outcome : Type :=
| NetworkError
| Responded (status : N) (payload : body).

(** The answers of the collaborators during one turn, in program order. *)
Record turn : Type := {
  userInsert : insert_outcome;
  firstLoad : select_outcome;
  remote : fetch_outcome;
  botInsert : insert_outcome;
  secondLoad : select_outcome
}.

(** ** A state monad for the event handlers *)

Definition M (A : Type) : Type := app -> A * app.

Definition ret {A : Type} (x : A) : M A := fun s => (x, s).

Definition bind {A B : Type} (m : M A) (k : A -> M B) : M B :=
  fun s => let (x, s') := m s in k x s'.

Declare Scope handler_scope.
Delimit Scope handler_scope with handler.
Notation "x <- m ;; k" := (bind m (fun x => k))
  (at level 100, m at next level, right associativity) : handler_scope.
Notation "m ;; k" := (bind m (fun _ => k))
  (at level 100, right associativity) : handler_scope.
Local Open Scope handler_scope.

Definition update_view (f : component -> component) : M unit :=
  fun s => (tt, {| db := db s; view := f (view s) |}).

Definition update_db (f : world -> world) : M unit :=
  fun s => (tt, {| db := f (db s); view := view s |}).

Definition setMessages (v : list ChatMessage.t) : M unit :=
  update_view (fun c =>
    {| user_ctx := user_ctx c; sessions := sessions c;
       currentSession := currentSession c; messages := v;
       input := input c; loading := loading c; apiError := apiError c |}).

Definition setInput (v : jsstring) : M unit :=
  update_view (fun c =>
    {| user_ctx := user_ctx c; sessions := sessions c;
       currentSession := currentSession c; messages := messages c;
       input := v; loading := loading c; apiError := apiError c |}).

Definition setLoading (v : bool) : M unit :=
  update_view (fun c =>
    {| user_ctx := user_ctx c; sessions := sessions c;
       currentSession := currentSession c; messages := messages c;
       input := input c; loading := v; apiError := apiError c |}).

Definition setApiError (v : jsstring) : M unit :=
  update_view (fun c =>
    {| user_ctx := user_ctx c; sessions := sessions c;
       currentSession := currentSession c; messages := messages c;
       input := input c; loading := loading c; apiError := v |}).

Definition emit (e : event) : M unit :=
  update_db (fun w =>
    {| chat_messages := chat_messages w; clock := clock w;
       next_id := next_id w; trace := trace w ++ [e] |}).

(** ** The store *)

(** The row the table makes of an accepted insert at time [now]. *)
Definition stored (w : world) (now : timestamp) (row : NewMessage.t) : ChatMessage.t :=
  {| ChatMessage.id := next_id w;
     ChatMessage.session_id := NewMessage.session_id row;
     ChatMessage.user_id := NewMessage.user_id row;
     ChatMessage.message := NewMessage.message row;
     ChatMessage.is_bot := NewMessage.is_bot row;
     ChatMessage.created_at := now |}.

(** [supabase.from('chat_messages').insert([row])]; the result is the
    [error] of the reply, [true] when there is one. *)
Definition insert (row : NewMessage.t) (answer : insert_outcome) : M bool :=
  emit (InsertRequest row) ;;
  match answer with
  | Inserted elapsed =>
      update_db (fun w =>
        let now := clock w + elapsed in
        {| chat_messages := chat_messages w ++ [stored w now row];
           clock := now; next_id := N.succ (next_id w); trace := trace w |}) ;;
      ret false
  | InsertError => ret true
  end.

(** [order('created_at', { ascending: true })]; rows of equal time keep the
    order of insertion. *)
Fixpoint place (m : ChatMessage.t) (l : list ChatMessage.t) : list ChatMessage.t :=
  match l with
  | [] => [m]
  | x :: l' =>
      if ChatMessage.created_at m <=? ChatMessage.created_at x
      then m :: l
      else x :: place m l'
  end.

Definition order_by_created_at (l : list ChatMessage.t) : list ChatMessage.t :=
  fold_right place [] l.

Definition of_session (sessionId : uuid) (l : list ChatMessage.t) : list ChatMessage.t :=
  filter (fun m => ChatMessage.session_id m =? sessionId) l.

(** [select('*').eq('session_id', sessionId).order('created_at', ...)];
    [None] stands for a reply with an [error]. *)
Definition select_messages (sessionId : uuid) (answer : select_outcome)
  : M (option (list ChatMessage.t)) :=
  emit (SelectRequest sessionId) ;;
  match answer with
  | Selected =>
      fun s => (Some (order_by_created_at (of_session sessionId (chat_messages (db s)))), s)
  | SelectError => ret None
  end.

(** ** The [Chatbot] component *)

Definition loadMessages (sessionId : uuid) (answer : select_outcome) : M unit :=
  data <- select_messages sessionId answer ;;
  match data with
  | Some rows => setMessages rows
  | None => ret tt
  end.

(** [response.ok]: a status in the range 200 to 299. *)
Definition ok (status : N) : bool := (200 <=? status) && (status <=? 299).

Definition acknowledgement : jsstring :=
  units "Thank you for sharing. I'm here to listen.".

Definition history_entry (m : ChatMessage.t) : Role.t * jsstring :=
  (if ChatMessage.is_bot m then Role.assistant else Role.user, ChatMessage.message m).

Section Handlers.
Variable toLowerCase : jsstring -> jsstring.

(** The [catch] block of [callChatbotAPI]. *)
Definition fallback (userMessage : jsstring) : M jsstring :=
  emit (ConsoleError (units "Chatbot API error:")) ;;
  setApiError (units "Connection issue. Using fallback response.") ;;
  ret (Client.generateFallbackResponse toLowerCase userMessage).

(** [callChatbotAPI]. [messages] is the state cell the closure captured
    when the component rendered. *)
Definition callChatbotAPI (messages : list ChatMessage.t) (userMessage : jsstring)
           (answer : fetch_outcome) : M jsstring :=
  let conversationHistory := map history_entry messages in
  emit (FetchRequest userMessage conversationHistory) ;;
  match answer with
  | NetworkError => fallback userMessage
  | Responded status payload =>
      if negb (ok status) then fallback userMessage
      else
        match payload with
        | NotJson => fallback userMessage
        | JsonNull => fallback userMessage
        | Json (Some response) =>
            ret (if truthy response then response else acknowledgement)
        | Json None => ret acknowledgement
        end
  end.

(** [sendMessage]. [render] holds the values of the state cells the
    handler closed over: a [set...] call changes the cell, not them. *)
Definition sendMessage (env : turn) (render : component) : M unit :=
  match currentSession render, user_ctx render with
  | Some currentSession, Some user =>
      if negb (truthy (trim (input render))) || loading render then ret tt
      else
        setLoading true ;;
        setApiError [] ;;
        let userMessage := trim (input render) in
        setInput [] ;;
        let userMsg :=
          {| NewMessage.session_id := ChatSession.id currentSession;
             NewMessage.user_id := User.id user;
             NewMessage.message := userMessage;
             NewMessage.is_bot := false |} in
        userError <- insert userMsg (userInsert env) ;;
        if userError then
          emit (ConsoleError (units "Error sending message:")) ;;
          setLoading false
        else
          loadMessages (ChatSession.id currentSession) (firstLoad env) ;;
          botResponse <- callChatbotAPI (messages render) userMessage (remote env) ;;
          let botMsg :=
            {| NewMessage.session_id := ChatSession.id currentSession;
               NewMessage.user_id := User.id user;
               NewMessage.message := botResponse;
               NewMessage.is_bot := true |} in
          botError <- insert botMsg (botInsert env) ;;
          (if negb botError
           then loadMessages (ChatSession.id currentSession) (secondLoad env)
           else ret tt) ;;
          setLoading false
  | _, _ => ret tt
  end.

(** The form submits: the handler of the current render runs. *)
Definition submit (env : turn) (s : app) : app :=
  snd (sendMessage env (view s) s).

End Handlers.

(** The table is chronological when its rows, in the order of insertion,
    have times that do not decrease and none later than the clock. *)
Definition by_time (a b : ChatMessage.t) : Prop :=
  ChatMessage.created_at a <= ChatMessage.created_at b.

Definition chronological_rows (l : list ChatMessage.t) (now : timestamp) : Prop :=
  StronglySorted by_time l
  /\ Forall (fun m => ChatMessage.created_at m <= now) l.

Definition chronological (w : world) : Prop :=
  chronological_rows (chat_messages w) (clock w).

(** The answers of the endpoint that take [callChatbotAPI] to its [catch]
    block: [fetch] rejects, the status is not a success, [response.json()]
    rejects, or [data] is [null]. *)
Definition caught (answer : fetch_outcome) : bool :=
  match answer with
  | NetworkError => true
  | Responded status payload =>
      negb (ok status)
      || match payload with
         | NotJson | JsonNull => true
         | Json _ => false
         end
  end.

(** The texts of the assistant rows a trace asks the store to insert. *)
Fixpoint bot_replies (t : list event) : list jsstring :=
  match t with
  | [] => []
  | InsertRequest row :: t' =>
      if NewMessage.is_bot row
      then NewMessage.message row :: bot_replies t'
      else bot_replies t'
  | _ :: t' => bot_replies t'
  end.

(** The requests to the remote endpoint in a trace. *)
Fixpoint fetches (t : list event) : list (jsstring * list (Role.t * jsstring)) :=
  match t with
  | [] => []
  | FetchRequest m h :: t' => (m, h) :: fetches t'
  | _ :: t' => fetches t'
  end.

(** A session with one earlier exchange, for the examples. *)
Definition session7 : ChatSession.t :=
  {| ChatSession.id := 7; ChatSession.user_id := 1; ChatSession.title := units "New Chat";
     ChatSession.created_at := 10; ChatSession.updated_at := 10 |}.

Definition earlier : list ChatMessage.t :=
  [ {| ChatMessage.id := 100; ChatMessage.session_id := 7; ChatMessage.user_id := 1;
       ChatMessage.message := units "hi"; ChatMessage.is_bot := false;
       ChatMessage.created_at := 11 |};
    {| ChatMessage.id := 101; ChatMessage.session_id := 7; ChatMessage.user_id := 1;
       ChatMessage.message := acknowledgement; ChatMessage.is_bot := true;
       ChatMessage.created_at := 12 |} ].

Definition world0 : world :=
  {| chat_messages := earlier; clock := 12; next_id := 102; trace := [] |}.

Definition typing (text : jsstring) : component :=
  {| user_ctx := Some {| User.id := 1 |}; sessions := [session7];
     currentSession := Some session7; messages := earlier;
     input := text; loading := false; apiError := [] |}.

Definition app0 (text : jsstring) : app := {| db := world0; view := typing text |}.

Definition all_fine (r : fetch_outcome) : turn :=
  {| userInsert := Inserted 3; firstLoad := Selected; remote := r;
     botInsert := Inserted 2; secondLoad := Selected |}.

Definition store_refuses : turn :=
  {| userInsert := InsertError; firstLoad := Selected; remote := NetworkError;
     botInsert := Inserted 2; secondLoad := Selected |}.

(** ** The input box and the shape of a stored text *)

(** The input box changes: [onChange={(e) => setInput(e.target.value)}]. *)
Definition onChange (value : jsstring) (s : app) : app :=
  snd (setInput value s).

(** A text that is not empty and neither begins nor ends with white
    space. *)
Definition trimmed (t : jsstring) : bool :=
  match t with
  | [] => false
  | c :: _ => negb (isWhiteSpace c) && negb (isWhiteSpace (last t c))
  end.

(** The condition under which the chain of tests arrives at the crisis
    branch and takes it. *)
Definition crisis_branch (lowerMessage : jsstring) : bool :=
  negb (Triggers.anxiety lowerMessage) && negb (Triggers.sadness lowerMessage)
  && negb (Triggers.stress lowerMessage) && negb (Triggers.sleep lowerMessage)
  && Triggers.crisis lowerMessage.

(** ** The [chatbot] edge function *)

(** The handler given to [Deno.serve]. A request is seen through its method
    and what [req.json()] gives; the inference endpoint it calls answers as
    a parameter. Bodies follow the declared interfaces ([ChatRequest], and
    [generated_text?: string] for the inference endpoint); what does not
    parse, or throws when it is read, is a thrown value. *)
Module Serve.

(** [a === b] on strings. *)
Fixpoint strict_eq (a b : jsstring) : bool :=
  match a, b with
  | [], [] => true
  | x :: a', y :: b' => (x =? y) && strict_eq a' b'
  | _, _ => false
  end.

Definition corsHeaders : list (jsstring * jsstring) :=
  [ (units "Access-Control-Allow-Origin", units "*");
    (units "Access-Control-Allow-Methods", units "GET, POST, PUT, DELETE, OPTIONS");
    (units "Access-Control-Allow-Headers",
     units "Content-Type, Authorization, X-Client-Info, Apikey") ].

(** [{ ...corsHeaders, "Content-Type": "application/json" }]. *)
Definition jsonHeaders : list (jsstring * jsstring) :=
  corsHeaders ++ [ (units "Content-Type", units "application/json") ].

(** A thrown value, by its [message] property: [None] when it has none. *)
Definition thrown := option jsstring.

(** What [await req.json()] and the destructuring of its value give: a
    throw (the body is not JSON, or is [null]), or the two properties read.
    [message] is [None] when the property is absent or not a string.
    [conversationHistory] is [None] when it is absent and a list when it is
    an array whose entries can be read, each seen through its [role] and
    [content] as declared. The cast to [ChatRequest] checks nothing: a
    [conversationHistory] that is present and is not such an array ([null],
    a number, a string, an object, an array with a [null] entry) is
    [MalformedHistory], with what the spread into [messages] or the filters
    of the inference request throw when they meet it. *)
Inductive request_json : Type :=
| Unparsable (error : thrown)
| Parsed (message : option jsstring)
         (conversationHistory : option (list (jsstring * jsstring)))
| MalformedHistory (message : option jsstring) (error : thrown).

Record Request : Type := { method : jsstring; json : request_json }.

(** The body of a response: none, [{ error }] or [{ response }]. *)
Inductive content : Type :=
| NoContent
| ErrorJson (error : jsstring)
| ResponseJson (response : jsstring).

Record Response : Type := {
  status : N;
  headers : list (jsstring * jsstring);
  body : content
}.

(** The request to the inference endpoint: the [Authorization] header and
    the [inputs] of the body. *)
Record InferenceRequest : Type := {
  authorization : jsstring;
  past_user_inputs : list jsstring;
  generated_responses : list jsstring;
  text : jsstring
}.

(** The answer of the inference endpoint: [fetch] rejects, or a response
    with its status and, read by [response.json()] and [data.generated_text],
    a throw (not JSON, or [null]) or the property, [None] when absent. *)
Inductive inference_body : Type :=
| Unreadable (error : thrown)
| Generated (generated_text : option jsstring).

Inductive inference : Type :=
| Unreachable (error : thrown)
| Answered (status : N) (data : inference_body).

Definition json_response (c : content) (status : N) : Response :=
  {| status := status; headers := jsonHeaders; body := c |}.

Section Handler.
Variable toLowerCase : jsstring -> jsstring.
(** [Deno.env.get("HUGGINGFACE_API_KEY")]. *)
Variable HUGGINGFACE_API_KEY : option jsstring.

(** The [catch] block. *)
Definition rescue (error : thrown) : Response :=
  let message :=
    match error with
    | Some m => if truthy m then m else units "I appreciate you reaching out."
    | None => units "I appreciate you reaching out."
    end in
  let fallbackResponse := Edge.generateFallbackResponse toLowerCase message in
  json_response (ResponseJson fallbackResponse) 200.

(** The handler: the response, and the requests made to the inference
    endpoint on the way. *)
Definition serve (req : Request) (upstream : inference)
  : Response * list InferenceRequest :=
  if strict_eq (method req) (units "OPTIONS") then
    ({| status := 200; headers := corsHeaders; body := NoContent |}, [])
  else if negb (strict_eq (method req) (units "POST")) then
    (json_response (ErrorJson (units "Method not allowed")) 405, [])
  else
    match json req with
    | Unparsable error => (rescue error, [])
    | Parsed None _ | MalformedHistory None _ =>
        (json_response (ErrorJson (units "Invalid message")) 400, [])
    | MalformedHistory (Some message) error =>
        if negb (truthy message) then
          (json_response (ErrorJson (units "Invalid message")) 400, [])
        else
          (* the spread, or a filter, throws before [fetch] is called *)
          (rescue error, [])
    | Parsed (Some message) history =>
        if negb (truthy message) then
          (json_response (ErrorJson (units "Invalid message")) 400, [])
        else
          let conversationHistory :=
            match history with
            | Some h => h
            | None => []
            end in
          let request :=
            {| authorization :=
                 units "Bearer "
                 ++ match HUGGINGFACE_API_KEY with
                    | Some key => key
                    | None => []
                    end;
               past_user_inputs :=
                 map snd (filter (fun m => strict_eq (fst m) (units "user"))
                                 conversationHistory);
               generated_responses :=
                 map snd (filter (fun m => strict_eq (fst m) (units "assistant"))
                                 conversationHistory);
               text := message |} in
          match upstream with
          | Unreachable error => (rescue error, [request])
          | Answered status data =>
              if negb (ok status) then
                let fallbackResponse :=
                  Edge.generateFallbackResponse toLowerCase message in
                (json_response (ResponseJson fallbackResponse) 200, [request])
              else
                match data with
                | Unreadable error => (rescue error, [request])
                | Generated generated_text =>
                    let botResponse :=
                      match generated_text with
                      | Some t =>
                          if truthy t then t
                          else Edge.generateFallbackResponse toLowerCase message
                      | None => Edge.generateFallbackResponse toLowerCase message
                      end in
                    (json_response (ResponseJson botResponse) 200, [request])
                end
          end
    end.

End Handler.

End Serve.

(** ** The component and the edge function, connected *)

(** The [role] strings of [callChatbotAPI]. *)
Definition role_name (r : Role.t) : jsstring :=
  match r with
  | Role.assistant => units "assistant"
  | Role.user => units "user"
  end.

(** The request the edge function receives when the [fetch] of
    [callChatbotAPI] reaches it: a POST whose body is the JSON text of
    [{ message, conversationHistory }]. *)
Definition posted (message : jsstring) (conversationHistory : list (Role.t * jsstring))
  : Serve.Request :=
  {| Serve.method := units "POST";
     Serve.json :=
       Serve.Parsed (Some message)
         (Some (map (fun e => (role_name (fst e), snd e)) conversationHistory)) |}.

(** What the [fetch] of [callChatbotAPI] resolves to when the response of
    the edge function comes back: its status, and its body as
    [response.json()] and [data.response] read it. *)
Definition received (r : Serve.Response) : fetch_outcome :=
  Responded (Serve.status r)
    match Serve.body r with
    | Serve.NoContent => NotJson
    | Serve.ErrorJson _ => Json None
    | Serve.ResponseJson t => Json (Some t)
    end.

(** ** The sessions of the [Chatbot] component *)

(** The answer of the store to a request on [chat_sessions]: the [data], or
    an [error]. The trace keeps the requests on [chat_messages] and to the
    remote endpoint; a request on [chat_sessions] is seen through its
    answer. *)
Inductive reply (A : Type) : Type :=
| Data (data : A)
| Failed.
Arguments Data {A} data.
Arguments Failed {A}.

Definition setSessions (v : list ChatSession.t) : M unit :=
  update_view (fun c =>
    {| user_ctx := user_ctx c; sessions := v;
       currentSession := currentSession c; messages := messages c;
       input := input c; loading := loading c; apiError := apiError c |}).

Definition setCurrentSession (v : option ChatSession.t) : M unit :=
  update_view (fun c =>
    {| user_ctx := user_ctx c; sessions := sessions c;
       currentSession := v; messages := messages c;
       input := input c; loading := loading c; apiError := apiError c |}).

(** [loadSessions]; [render] holds the state cells the closure captured. *)
Definition loadSessions (answer : reply (list ChatSession.t)) (render : component)
  : M unit :=
  match answer with
  | Data data =>
      setSessions data ;;
      match data, currentSession render with
      | first :: _, None => setCurrentSession (Some first)
      | _, _ => ret tt
      end
  | Failed => ret tt
  end.

(** [createNewSession]: the insert asks for the signed-in user and the
    title 'New Chat'; [answer] is the row the store gives back. *)
Definition createNewSession (answer : reply ChatSession.t) (render : component)
  : M unit :=
  match user_ctx render with
  | None => ret tt
  | Some _ =>
      match answer with
      | Data data =>
          setSessions (data :: sessions render) ;;
          setCurrentSession (Some data) ;;
          setMessages []
      | Failed => ret tt
      end
  end.

(** The effect on [currentSession]: after a render in which the selected
    session changed, its messages are loaded. *)
Definition currentSessionEffect (answer : select_outcome) : M unit :=
  fun s =>
    match currentSession (view s) with
    | Some currentSession => loadMessages (ChatSession.id currentSession) answer s
    | None => ret tt s
    end.

(** The "New Chat" button: the handler of the current render runs; when it
    selected the new session, the component renders again and the effect
    loads the messages of that session. *)
Definition clickNewChat (answer : reply ChatSession.t) (load : select_outcome)
           (s : app) : app :=
  let s' := snd (createNewSession answer (view s) s) in
  match user_ctx (view s), answer with
  | Some _, Data _ => snd (currentSessionEffect load s')
  | _, _ => s'
  end.

(** The selected session, when there is one, is among the listed ones. *)
Definition listed (c : component) : Prop :=
  match currentSession c with
  | Some x => In x (sessions c)
  | None => True
  end.

(** ** The [Profile] component *)

Module ProfileForm.

Inductive role : Type := patient | doctor | ngo.

Record Profile : Type := {
  id : uuid;
  email : jsstring;
  full_name : jsstring;
  profile_role : role;
  bio : jsstring;
  avatar_url : jsstring;
  specialization : option jsstring;
  organization : option jsstring;
  created_at : jsstring;
  updated_at : jsstring
}.

(** The state cells of the form. *)
Record form : Type := {
  fullName : jsstring;
  bioText : jsstring;
  specializationText : jsstring;
  organizationText : jsstring;
  loading : bool;
  success : bool;
  error : jsstring
}.

(** The [updates] object; the two last properties are set for some roles
    only. *)
Record updates : Type := {
  u_full_name : jsstring;
  u_bio : jsstring;
  u_updated_at : jsstring;
  u_specialization : option jsstring;
  u_organization : option jsstring
}.

(** [update(updates).eq('id', id)] on [profiles]. *)
Record UpdateRequest : Type := { eq_id : uuid; payload : updates }.

(** [x || ''] on a string. *)
Definition or_empty (x : option jsstring) : jsstring :=
  match x with
  | Some v => v
  | None => []
  end.

(** The effect on [profile]: the form takes the values of the profile. *)
Definition syncFromProfile (profile : option Profile) (f : form) : form :=
  match profile with
  | Some p =>
      {| fullName := full_name p;
         bioText := bio p;
         specializationText := or_empty (specialization p);
         organizationText := or_empty (organization p);
         loading := loading f; success := success f; error := error f |}
  | None => f
  end.

Definition is_doctor (profile : option Profile) : bool :=
  match profile with
  | Some p => match profile_role p with doctor => true | _ => false end
  | None => false
  end.

Definition is_ngo (profile : option Profile) : bool :=
  match profile with
  | Some p => match profile_role p with ngo => true | _ => false end
  | None => false
  end.

(** [handleSubmit]. [now] is [new Date().toISOString()]; [answer] is the
    [message] of the error of the store, [None] when the update went
    through. The result: the form, the requests sent, and whether the timer
    that hides the success banner was set. *)
Definition handleSubmit (user : option User.t) (profile : option Profile)
           (now : jsstring) (answer : option jsstring) (f : form)
  : form * list UpdateRequest * bool :=
  match user with
  | None => (f, [], false)
  | Some user =>
      let updates :=
        {| u_full_name := fullName f;
           u_bio := bioText f;
           u_updated_at := now;
           u_specialization :=
             if is_doctor profile then Some (specializationText f) else None;
           u_organization :=
             if is_ngo profile then Some (organizationText f) else None |} in
      let request := {| eq_id := User.id user; payload := updates |} in
      match answer with
      | Some message =>
          ({| fullName := fullName f; bioText := bioText f;
              specializationText := specializationText f;
              organizationText := organizationText f;
              loading := false; success := false; error := message |},
           [request], false)
      | None =>
          ({| fullName := fullName f; bioText := bioText f;
              specializationText := specializationText f;
              organizationText := organizationText f;
              loading := false; success := true; error := [] |},
           [request], true)
      end
  end.

End ProfileForm.

(** A click on a session of the list other than the selected one:
    [onClick={() => setCurrentSession(session)}], then the effect on
    [currentSession] loads its messages. (A click on the selected session
    sets the cell to the value it holds: nothing renders, nothing runs.) *)
Definition clickSession (session : ChatSession.t) (load : select_outcome)
           (s : app) : app :=
  snd (currentSessionEffect load (snd (setCurrentSession (Some session) s))).

(** ** A turn, await by await *)

(** [sendMessage] is an [async] function: it runs up to an [await], gives
    the control back, and goes on when the awaited answer arrives; other
    events of the page are handled in between. [begin] is its part up to the
    first [await], [resume] the part from one [await] to the next. *)

(** The answer to an insert arrives. *)
Definition settle_insert (row : NewMessage.t) (answer : insert_outcome) : M bool :=
  match answer with
  | Inserted elapsed =>
      update_db (fun w =>
        let now := clock w + elapsed in
        {| chat_messages := chat_messages w ++ [stored w now row];
           clock := now; next_id := N.succ (next_id w); trace := trace w |}) ;;
      ret false
  | InsertError => ret true
  end.

(** The answer to the select of [loadMessages] arrives. *)
Definition settle_load (sessionId : uuid) (answer : select_outcome) : M unit :=
  match answer with
  | Selected =>
      fun s =>
        setMessages
          (order_by_created_at (of_session sessionId (chat_messages (db s)))) s
  | SelectError => ret tt
  end.

(** A turn that was started and has not ended, by the [await] it is at,
    with what the handler closed over and computed so far. *)
Inductive pending : Type :=
| AwaitingUserInsert (currentSession : ChatSession.t) (user : User.t)
                     (userMessage : jsstring) (history : list ChatMessage.t)
| AwaitingFirstLoad (currentSession : ChatSession.t) (user : User.t)
                    (userMessage : jsstring) (history : list ChatMessage.t)
| AwaitingRemote (currentSession : ChatSession.t) (user : User.t)
                 (userMessage : jsstring)
| AwaitingBotInsert (currentSession : ChatSession.t) (botMsg : NewMessage.t)
| AwaitingSecondLoad (currentSession : ChatSession.t).

(** The session a pending turn writes to. *)
Definition pending_session (p : pending) : uuid :=
  match p with
  | AwaitingUserInsert cs _ _ _ | AwaitingFirstLoad cs _ _ _
  | AwaitingRemote cs _ _ | AwaitingBotInsert cs _ | AwaitingSecondLoad cs =>
      ChatSession.id cs
  end.

(** [sendMessage] up to its first [await]: the guard, the three setters and
    the request to insert the row of the user. *)
Definition begin (render : component) : M (option pending) :=
  match currentSession render, user_ctx render with
  | Some currentSession, Some user =>
      if negb (truthy (trim (input render))) || loading render then ret None
      else
        setLoading true ;;
        setApiError [] ;;
        let userMessage := trim (input render) in
        setInput [] ;;
        emit (InsertRequest
                {| NewMessage.session_id := ChatSession.id currentSession;
                   NewMessage.user_id := User.id user;
                   NewMessage.message := userMessage;
                   NewMessage.is_bot := false |}) ;;
        ret (Some (AwaitingUserInsert currentSession user userMessage
                     (messages render)))
  | _, _ => ret None
  end.

Section Steps.
Variable toLowerCase : jsstring -> jsstring.

(** The answer to the [fetch] of [callChatbotAPI] arrives. *)
Definition settle_fetch (userMessage : jsstring) (answer : fetch_outcome)
  : M jsstring :=
  match answer with
  | NetworkError => fallback toLowerCase userMessage
  | Responded status payload =>
      if negb (ok status) then fallback toLowerCase userMessage
      else
        match payload with
        | NotJson => fallback toLowerCase userMessage
        | JsonNull => fallback toLowerCase userMessage
        | Json (Some response) =>
            ret (if truthy response then response else acknowledgement)
        | Json None => ret acknowledgement
        end
  end.

(** [sendMessage] from one [await] to the next; [None] when it returns. *)
Definition resume (env : turn) (p : pending) : M (option pending) :=
  match p with
  | AwaitingUserInsert currentSession user userMessage history =>
      userError <-
        settle_insert
          {| NewMessage.session_id := ChatSession.id currentSession;
             NewMessage.user_id := User.id user;
             NewMessage.message := userMessage;
             NewMessage.is_bot := false |}
          (userInsert env) ;;
      if userError then
        emit (ConsoleError (units "Error sending message:")) ;;
        setLoading false ;;
        ret None
      else
        emit (SelectRequest (ChatSession.id currentSession)) ;;
        ret (Some (AwaitingFirstLoad currentSession user userMessage history))
  | AwaitingFirstLoad currentSession user userMessage history =>
      settle_load (ChatSession.id currentSession) (firstLoad env) ;;
      emit (FetchRequest userMessage (map history_entry history)) ;;
      ret (Some (AwaitingRemote currentSession user userMessage))
  | AwaitingRemote currentSession user userMessage =>
      botResponse <- settle_fetch userMessage (remote env) ;;
      let botMsg :=
        {| NewMessage.session_id := ChatSession.id currentSession;
           NewMessage.user_id := User.id user;
           NewMessage.message := botResponse;
           NewMessage.is_bot := true |} in
      emit (InsertRequest botMsg) ;;
      ret (Some (AwaitingBotInsert currentSession botMsg))
  | AwaitingBotInsert currentSession botMsg =>
      botError <- settle_insert botMsg (botInsert env) ;;
      if negb botError then
        emit (SelectRequest (ChatSession.id currentSession)) ;;
        ret (Some (AwaitingSecondLoad currentSession))
      else
        setLoading false ;;
        ret None
  | AwaitingSecondLoad currentSession =>
      settle_load (ChatSession.id currentSession) (secondLoad env) ;;
      setLoading false ;;
      ret None
  end.

(** The turn goes on to its end, at most [n] awaits away. *)
Fixpoint finish (n : nat) (env : turn) (p : option pending) (s : app) : app :=
  match p, n with
  | None, _ => s
  | Some _, O => s
  | Some p, S n' => let (p', s') := resume env p s in finish n' env p' s'
  end.

(** The states of the application in which a turn started by the mounted
    instance of the component is in flight: from the state [begin] leaves,
    through the awaits that do not end the turn, and through what the user
    can do on the page meanwhile (type; press "New Chat"; select another
    session). *)
Inductive in_flight : pending -> app -> Prop :=
| in_flight_begun (s s' : app) (p : pending) :
    begin (view s) s = (Some p, s') -> in_flight p s'
| in_flight_resumed (env : turn) (s s' : app) (p p' : pending) :
    in_flight p s -> resume env p s = (Some p', s') -> in_flight p' s'
| in_flight_typed (s : app) (p : pending) (value : jsstring) :
    in_flight p s -> in_flight p (onChange value s)
| in_flight_new_chat (s : app) (p : pending)
                     (answer : reply ChatSession.t) (load : select_outcome) :
    in_flight p s -> in_flight p (clickNewChat answer load s)
| in_flight_session_clicked (s : app) (p : pending)
                            (session : ChatSession.t) (load : select_outcome) :
    in_flight p s -> in_flight p (clickSession session load s).

(** A turn of an instance that is no longer mounted goes on to its end:
    its requests reach the store; its setters change the cells of the
    instance that started it, which nothing renders any more, and the cells
    of the mounted instance are left alone. *)
Definition finish_unmounted (env : turn) (p : pending) (cells : component) (s : app)
  : app :=
  {| db := db (finish 5 env (Some p) {| db := db s; view := cells |});
     view := view s |}.

End Steps.

(** ** Leaving the chat and coming back *)

(** The state cells of a [Chatbot] that has just been mounted: the initial
    values of its [useState] calls, under the authentication context. *)
Definition mounted (user : option User.t) : component :=
  {| user_ctx := user; sessions := []; currentSession := None; messages := [];
     input := []; loading := false; apiError := [] |}.

(** The effect on [user]: [if (user) loadSessions()]. *)
Definition userEffect (answer : reply (list ChatSession.t)) : M unit :=
  fun s =>
    match user_ctx (view s) with
    | Some _ => loadSessions answer (view s) s
    | None => ret tt s
    end.

(** [App] renders [<Chatbot />] only while the current view is the chat:
    another view unmounts the component, the chat view mounts a new
    instance, whose effects load the sessions (the first one is selected)
    and then the messages of the selected session. The store is the same. *)
Definition leaveAndReturn (sessionsAnswer : reply (list ChatSession.t))
           (load : select_outcome) (s : app) : app :=
  let fresh := {| db := db s; view := mounted (user_ctx (view s)) |} in
  snd (currentSessionEffect load (snd (userEffect sessionsAnswer fresh))).

(** A turn on "hello" that has stored the row of the user and awaits the
    reload of the transcript, for the examples. *)
Definition hello_begun : option pending * app :=
  begin (view (app0 (units "hello"))) (app0 (units "hello")).

Definition hello_pending : pending :=
  AwaitingFirstLoad session7 {| User.id := 1 |} (units "hello") earlier.

Definition hello_in_flight : app :=
  snd (resume toLowerCase_ascii (all_fine NetworkError)
         (AwaitingUserInsert session7 {| User.id := 1 |} (units "hello") earlier)
         (snd hello_begun)).

(** * Properties *)

(** ** Strings *)

Lemma startsWith_spec (t s : jsstring) :
  startsWith s t = true <-> exists b, s = t ++ b.
Proof.
  revert s; induction t as [|y t IH]; intros s.
  - destruct s; simpl; split; eauto.
  - destruct s as [|x s]; simpl.
    + split; [discriminate | intros [b Hb]; discriminate].
    + rewrite andb_true_iff, N.eqb_eq, IH. split.
      * intros [-> [b ->]]. now exists b.
      * intros [b Hb]. injection Hb as -> ->. eauto.
Qed.

(** [includes] is the substring test. *)
Lemma includes_spec (s t : jsstring) :
  includes s t = true <-> exists a b, s = a ++ t ++ b.
Proof.
  induction s as [|x s IH].
  - cbn [includes]. rewrite orb_false_r, startsWith_spec. split.
    + intros [b Hb]. now exists [], b.
    + intros [a [b Hab]]. symmetry in Hab.
      apply app_eq_nil in Hab as [_ Hab]. apply app_eq_nil in Hab as [-> ->].
      now exists [].
  - cbn [includes]. rewrite orb_true_iff, startsWith_spec, IH. split.
    + intros [[b Hb] | [a [b Hab]]].
      * now exists [], b.
      * exists (x :: a), b. now rewrite Hab.
    + intros [[|x' a] [b Hab]].
      * left. now exists b.
      * right. injection Hab as _ ->. now exists a, b.
Qed.

Lemma trimStart_nil (s : jsstring) :
  trimStart s = [] <-> forallb isWhiteSpace s = true.
Proof.
  induction s as [|c s IH]; simpl.
  - tauto.
  - destruct (isWhiteSpace c); simpl.
    + exact IH.
    + split; discriminate.
Qed.

Lemma trimStart_all_white (s : jsstring) :
  forallb isWhiteSpace s = true -> forallb isWhiteSpace (trimStart s) = true.
Proof.
  induction s as [|c s IH]; simpl; [easy|].
  destruct (isWhiteSpace c) eqn:E; simpl; [exact IH | discriminate].
Qed.

Lemma trimStart_suffix (s : jsstring) :
  exists a, s = a ++ trimStart s /\ forallb isWhiteSpace a = true.
Proof.
  induction s as [|c s [a [Ha Hw]]]; simpl.
  - now exists [].
  - destruct (isWhiteSpace c) eqn:E.
    + exists (c :: a). simpl. rewrite E, Hw. split; [now f_equal | reflexivity].
    + now exists [].
Qed.

Lemma forallb_rev {A : Type} (f : A -> bool) (l : list A) :
  forallb f (rev l) = forallb f l.
Proof.
  induction l as [|x l IH]; simpl; [reflexivity|].
  rewrite forallb_app, IH. simpl. rewrite andb_true_r. apply andb_comm.
Qed.

(** [trim] leaves nothing exactly of the strings made of white space only,
    the empty one among them. *)
Lemma trim_nil (s : jsstring) :
  trim s = [] <-> forallb isWhiteSpace s = true.
Proof.
  unfold trim, trimEnd. split.
  - intros H.
    assert (Hr : trimStart (rev (trimStart s)) = []).
    { rewrite <- (rev_involutive (trimStart _)), H. reflexivity. }
    apply trimStart_nil in Hr. rewrite forallb_rev in Hr.
    destruct (trimStart_suffix s) as [a [Ha Hw]].
    rewrite Ha, forallb_app, Hw, Hr. reflexivity.
  - intros H. apply trimStart_all_white in H.
    rewrite <- forallb_rev in H. apply trimStart_nil in H.
    rewrite H. reflexivity.
Qed.

(** ** The responder, by category *)

Section ResponderFacts.
Variable toLowerCase : jsstring -> jsstring.

Ltac by_cases :=
  unfold Client.generateFallbackResponse, Edge.generateFallbackResponse, classify,
    Triggers.anxiety, Triggers.sadness, Triggers.stress, Triggers.sleep,
    Triggers.crisis, Triggers.gratitude;
  cbv zeta;
  repeat match goal with
         | |- context [if ?b then _ else _] =>
             lazymatch b with
             | true => fail
             | false => fail
             | _ => destruct b
             end
         end.

Lemma client_by_category (userMessage : jsstring) :
  Client.generateFallbackResponse toLowerCase userMessage
  = Client.response (classify (toLowerCase userMessage)).
Proof. by_cases; reflexivity. Qed.

Lemma edge_by_category (userMessage : jsstring) :
  Edge.generateFallbackResponse toLowerCase userMessage
  = Edge.response (classify (toLowerCase userMessage)).
Proof. by_cases; reflexivity. Qed.

End ResponderFacts.

Lemma client_response_inj (c1 c2 : category) :
  Client.response c1 = Client.response c2 -> c1 = c2.
Proof.
  destruct c1, c2; intros H; try reflexivity;
    apply (f_equal (@List.length code_unit)) in H; vm_compute in H; discriminate.
Qed.

Lemma edge_response_inj (c1 c2 : category) :
  Edge.response c1 = Edge.response c2 -> c1 = c2.
Proof.
  destruct c1, c2; intros H; try reflexivity;
    apply (f_equal (@List.length code_unit)) in H; vm_compute in H; discriminate.
Qed.

Lemma client_response_nonempty (c : category) : Client.response c <> [].
Proof.
  destruct c; intros H;
    apply (f_equal (@List.length code_unit)) in H; vm_compute in H; discriminate.
Qed.

Lemma edge_response_nonempty (c : category) : Edge.response c <> [].
Proof.
  destruct c; intros H;
    apply (f_equal (@List.length code_unit)) in H; vm_compute in H; discriminate.
Qed.

Lemma responses_differ (c : category) : Client.response c <> Edge.response c.
Proof.
  destruct c; intros H;
    apply (f_equal (@List.length code_unit)) in H; vm_compute in H; discriminate.
Qed.

Section ResponderOrder.
Variable toLowerCase : jsstring -> jsstring.

(** The anxiety test is the first of the chain: nothing overrides it. *)
Lemma anxiety_first (userMessage : jsstring) :
  Triggers.anxiety (toLowerCase userMessage) = true ->
  Client.generateFallbackResponse toLowerCase userMessage = Client.anxiety_text
  /\ Edge.generateFallbackResponse toLowerCase userMessage = Edge.anxiety_text.
Proof.
  intros H. rewrite client_by_category, edge_by_category.
  unfold classify. rewrite H. split; reflexivity.
Qed.

(** The crisis test is the fifth: it is reached when the four before it
    (anxiety, sadness, stress, sleep) fail, whatever comes after it. *)
Lemma crisis_reached (userMessage : jsstring) :
  Triggers.anxiety (toLowerCase userMessage) = false ->
  Triggers.sadness (toLowerCase userMessage) = false ->
  Triggers.stress (toLowerCase userMessage) = false ->
  Triggers.sleep (toLowerCase userMessage) = false ->
  Triggers.crisis (toLowerCase userMessage) = true ->
  Client.generateFallbackResponse toLowerCase userMessage = Client.crisis_text
  /\ Edge.generateFallbackResponse toLowerCase userMessage = Edge.crisis_text.
Proof.
  intros H1 H2 H3 H4 H5. rewrite client_by_category, edge_by_category.
  unfold classify. rewrite H1, H2, H3, H4, H5. split; reflexivity.
Qed.

(** The gratitude test is the last: it is reached when the five before
    it fail. *)
Lemma gratitude_reached (userMessage : jsstring) :
  Triggers.anxiety (toLowerCase userMessage) = false ->
  Triggers.sadness (toLowerCase userMessage) = false ->
  Triggers.stress (toLowerCase userMessage) = false ->
  Triggers.sleep (toLowerCase userMessage) = false ->
  Triggers.crisis (toLowerCase userMessage) = false ->
  Triggers.gratitude (toLowerCase userMessage) = true ->
  Client.generateFallbackResponse toLowerCase userMessage = Client.gratitude_text
  /\ Edge.generateFallbackResponse toLowerCase userMessage = Edge.gratitude_text.
Proof.
  intros H1 H2 H3 H4 H5 H6. rewrite client_by_category, edge_by_category.
  unfold classify. rewrite H1, H2, H3, H4, H5, H6. split; reflexivity.
Qed.

End ResponderOrder.

(** The crisis response of either copy names the 988 line and the text
    line. *)
Lemma crisis_text_refers :
  includes Client.crisis_text (units "988 (Suicide & Crisis Lifeline)") = true
  /\ includes Client.crisis_text (units "741741") = true
  /\ includes Edge.crisis_text (units "988 (Suicide & Crisis Lifeline)") = true
  /\ includes Edge.crisis_text (units "741741") = true.
Proof. repeat split; vm_compute; reflexivity. Qed.

(** C1. Crisis precedence does not hold in the code: the crisis test comes
    after the anxiety, sadness, stress and sleep tests. The message below
    holds the crisis trigger "help" and the anxiety trigger "anxious"; both
    copies of the responder answer it with the anxiety response, which is
    not the crisis response. *)
Theorem crisis_loses_to_anxiety :
  let userMessage := units "I feel anxious, please help me" in
  Triggers.crisis (toLowerCase_ascii userMessage) = true
  /\ Triggers.anxiety (toLowerCase_ascii userMessage) = true
  /\ Client.generateFallbackResponse toLowerCase_ascii userMessage = Client.anxiety_text
  /\ Edge.generateFallbackResponse toLowerCase_ascii userMessage = Edge.anxiety_text
  /\ Client.anxiety_text <> Client.crisis_text
  /\ Edge.anxiety_text <> Edge.crisis_text.
Proof.
  cbv zeta. repeat split; try (vm_compute; reflexivity).
  - intros H. now apply (client_response_inj Anxiety Crisis) in H.
  - intros H. now apply (edge_response_inj Anxiety Crisis) in H.
Qed.

(** C2. The crisis-line referral is missing when a mood keyword comes with
    the crisis keyword: the message below holds the crisis triggers "harm"
    and "suicid" and the sadness trigger "sad"; both copies answer with the
    sadness response, in which neither the 988 line nor the text line
    741741 nor the emergency services are named. *)
Theorem no_referral_after_sadness :
  let userMessage := units "I am so sad, I think about suicide and want to harm myself" in
  Triggers.crisis (toLowerCase_ascii userMessage) = true
  /\ Client.generateFallbackResponse toLowerCase_ascii userMessage = Client.sadness_text
  /\ Edge.generateFallbackResponse toLowerCase_ascii userMessage = Edge.sadness_text
  /\ includes Client.sadness_text (units "988") = false
  /\ includes Client.sadness_text (units "741741") = false
  /\ includes Client.sadness_text (units "emergency") = false
  /\ includes Edge.sadness_text (units "988") = false
  /\ includes Edge.sadness_text (units "741741") = false
  /\ includes Edge.sadness_text (units "emergency") = false.
Proof. cbv zeta. repeat split; vm_compute; reflexivity. Qed.

(** C5, as stated, fails: "thanks, I've been anxious" holds "thank" and
    "anxious" and no crisis trigger, and neither copy answers with the
    gratitude response. *)
Lemma gratitude_precedence_counterexample :
  let userMessage := units "thanks, I've been anxious" in
  Triggers.gratitude (toLowerCase_ascii userMessage) = true
  /\ Triggers.anxiety (toLowerCase_ascii userMessage) = true
  /\ Triggers.crisis (toLowerCase_ascii userMessage) = false
  /\ Client.generateFallbackResponse toLowerCase_ascii userMessage <> Client.gratitude_text
  /\ Edge.generateFallbackResponse toLowerCase_ascii userMessage <> Edge.gratitude_text.
Proof.
  cbv zeta. repeat split; try (vm_compute; reflexivity).
  - intros H. apply (f_equal (@List.length code_unit)) in H. vm_compute in H. discriminate.
  - intros H. apply (f_equal (@List.length code_unit)) in H. vm_compute in H. discriminate.
Qed.

(** C5, amended. Anxiety precedes gratitude: for every message that, once
    lower-cased, contains "thank" and an anxiety trigger ("anxious" or
    "anxiety") and no crisis trigger, both copies of the responder return
    the anxiety response. *)
Theorem anxiety_precedes_gratitude
  (toLowerCase : jsstring -> jsstring) (userMessage : jsstring) :
  Triggers.gratitude (toLowerCase userMessage) = true ->
  Triggers.anxiety (toLowerCase userMessage) = true ->
  Triggers.crisis (toLowerCase userMessage) = false ->
  Client.generateFallbackResponse toLowerCase userMessage = Client.anxiety_text
  /\ Edge.generateFallbackResponse toLowerCase userMessage = Edge.anxiety_text.
Proof. intros _ H _. now apply anxiety_first. Qed.

Lemma anxiety_precedes_gratitude_witness :
  let userMessage := units "thanks, I've been anxious" in
  Client.generateFallbackResponse toLowerCase_ascii userMessage = Client.anxiety_text
  /\ Edge.generateFallbackResponse toLowerCase_ascii userMessage = Edge.anxiety_text.
Proof.
  apply (anxiety_precedes_gratitude toLowerCase_ascii (units "thanks, I've been anxious"));
    vm_compute; reflexivity.
Defined.

(** C8. The responder is total: for every message (the empty one too) it
    returns a string, and the string is not empty; when no trigger occurs
    in the lower-cased message, the string is the generic supportive
    prompt. This holds for both copies. *)
Theorem generateFallbackResponse_total
  (toLowerCase : jsstring -> jsstring) (userMessage : jsstring) :
  Client.generateFallbackResponse toLowerCase userMessage <> []
  /\ Edge.generateFallbackResponse toLowerCase userMessage <> []
  /\ (Triggers.anxiety (toLowerCase userMessage) = false ->
      Triggers.sadness (toLowerCase userMessage) = false ->
      Triggers.stress (toLowerCase userMessage) = false ->
      Triggers.sleep (toLowerCase userMessage) = false ->
      Triggers.crisis (toLowerCase userMessage) = false ->
      Triggers.gratitude (toLowerCase userMessage) = false ->
      Client.generateFallbackResponse toLowerCase userMessage = Client.default_text
      /\ Edge.generateFallbackResponse toLowerCase userMessage = Edge.default_text).
Proof.
  rewrite client_by_category, edge_by_category.
  split; [apply client_response_nonempty|].
  split; [apply edge_response_nonempty|].
  intros H1 H2 H3 H4 H5 H6. unfold classify.
  rewrite H1, H2, H3, H4, H5, H6. split; reflexivity.
Qed.

Lemma generateFallbackResponse_total_witness :
  Client.generateFallbackResponse toLowerCase_ascii (units "Good morning") = Client.default_text
  /\ Edge.generateFallbackResponse toLowerCase_ascii (units "Good morning") = Edge.default_text.
Proof.
  apply (generateFallbackResponse_total toLowerCase_ascii (units "Good morning"));
    vm_compute; reflexivity.
Defined.

(** C10. The two copies of the responder select the same category for
    every message: each returns the response of the category that the
    shared chain of tests assigns to the lower-cased message, so one
    returns the response of a category exactly when the other does; the
    wordings of the two copies differ in every category. *)
Theorem responders_same_category
  (toLowerCase : jsstring -> jsstring) (userMessage : jsstring) :
  Client.generateFallbackResponse toLowerCase userMessage
    = Client.response (classify (toLowerCase userMessage))
  /\ Edge.generateFallbackResponse toLowerCase userMessage
    = Edge.response (classify (toLowerCase userMessage))
  /\ (forall c : category,
        Client.generateFallbackResponse toLowerCase userMessage = Client.response c
        <-> Edge.generateFallbackResponse toLowerCase userMessage = Edge.response c)
  /\ (forall c : category, Client.response c <> Edge.response c).
Proof.
  rewrite client_by_category, edge_by_category. repeat split.
  - intros H. apply client_response_inj in H. now rewrite H.
  - intros H. apply edge_response_inj in H. now rewrite H.
  - apply responses_differ.
Qed.

(** ** The turn *)

Lemma bot_replies_app (t1 t2 : list event) :
  bot_replies (t1 ++ t2) = bot_replies t1 ++ bot_replies t2.
Proof.
  induction t1 as [|e t1 IH]; simpl; [reflexivity|].
  destruct e as [row| | |]; try exact IH.
  destruct (NewMessage.is_bot row); simpl; now rewrite IH.
Qed.

Lemma fetches_app (t1 t2 : list event) :
  fetches (t1 ++ t2) = fetches t1 ++ fetches t2.
Proof.
  induction t1 as [|e t1 IH]; simpl; [reflexivity|].
  destruct e; simpl; now rewrite IH.
Qed.

Lemma of_session_app (sid : uuid) (l1 l2 : list ChatMessage.t) :
  of_session sid (l1 ++ l2) = of_session sid l1 ++ of_session sid l2.
Proof. apply filter_app. Qed.

Lemma of_session_own (sid : uuid) (l : list ChatMessage.t) :
  forallb (fun m => ChatMessage.session_id m =? sid) l = true ->
  of_session sid l = l.
Proof.
  induction l as [|x l IH]; simpl; [reflexivity|].
  intros H. apply andb_true_iff in H as [Hx Hl]. rewrite Hx, IH; auto.
Qed.

(** Runs the handlers: unfolds them, the operations of the monad and the
    projections of the records, by value, and leaves strings, lists and
    numbers alone. *)
Ltac run :=
  cbv beta iota zeta delta
    [submit sendMessage callChatbotAPI fallback loadMessages select_messages
     insert setInput setLoading setApiError setMessages emit update_view
     update_db bind ret stored fst snd negb orb
     db view chat_messages clock next_id trace
     user_ctx sessions currentSession messages input loading apiError
     userInsert firstLoad remote botInsert secondLoad
     NewMessage.session_id NewMessage.user_id NewMessage.message NewMessage.is_bot
     ChatMessage.id ChatMessage.session_id ChatMessage.user_id
     ChatMessage.message ChatMessage.is_bot ChatMessage.created_at].

(** Names the cells of the state and the answers of the turn, and
    substitutes what the hypotheses say of them. *)
Ltac open_state s env :=
  destruct s as [[rows now nid tr] [uc ss cur ms inp ld ae]];
  destruct env as [ui fl rm bi sl];
  cbn [db view chat_messages clock next_id trace
       user_ctx sessions currentSession messages input loading apiError
       userInsert firstLoad remote botInsert secondLoad] in *;
  subst.

(** The remaining answers, case by case. *)
Ltac answers :=
  repeat match goal with
         | x : select_outcome |- _ => destruct x
         | x : insert_outcome |- _ => destruct x
         | x : fetch_outcome |- _ => destruct x as [|?status [| |[?r|]]]
         end.

(** An accepted submission passes the guard of [sendMessage]. *)
Ltac accepted H :=
  unfold submit, sendMessage;
  cbn [view currentSession user_ctx input loading];
  rewrite H; cbn [negb orb].

Section Turn.
Variable toLowerCase : jsstring -> jsstring.

Local Opaque units trim Client.generateFallbackResponse order_by_created_at of_session.

(** The value [callChatbotAPI] resolves to when the [catch] block runs. *)
Lemma callChatbotAPI_caught messages userMessage answer s :
  caught answer = true ->
  callChatbotAPI toLowerCase messages userMessage answer s
  = fallback toLowerCase userMessage
      (snd (emit (FetchRequest userMessage (map history_entry messages)) s)).
Proof.
  intros H. unfold callChatbotAPI, bind.
  destruct answer as [|status payload]; simpl in *; [reflexivity|].
  destruct (ok status); simpl in *; [|reflexivity].
  destruct payload; try reflexivity; discriminate.
Qed.

(** The value it resolves to when the body is read and holds no reply. *)
Lemma callChatbotAPI_blank messages userMessage status r s :
  ok status = true -> r = None \/ r = Some [] ->
  callChatbotAPI toLowerCase messages userMessage (Responded status (Json r)) s
  = (acknowledgement,
     snd (emit (FetchRequest userMessage (map history_entry messages)) s)).
Proof.
  intros H [-> | ->]; unfold callChatbotAPI, bind; simpl; rewrite H; reflexivity.
Qed.

(** The value it resolves to when the body holds a reply. *)
Lemma callChatbotAPI_reply messages userMessage status c r s :
  ok status = true ->
  callChatbotAPI toLowerCase messages userMessage (Responded status (Json (Some (c :: r)))) s
  = (c :: r,
     snd (emit (FetchRequest userMessage (map history_entry messages)) s)).
Proof.
  intros H; unfold callChatbotAPI, bind; simpl; rewrite H; reflexivity.
Qed.

(** The resolved value does not depend on the state of the application. *)
Lemma callChatbotAPI_value messages userMessage answer s1 s2 :
  fst (callChatbotAPI toLowerCase messages userMessage answer s1)
  = fst (callChatbotAPI toLowerCase messages userMessage answer s2).
Proof.
  unfold callChatbotAPI, fallback, bind.
  destruct answer as [|status [| |[r|]]]; simpl; try reflexivity;
    destruct (ok status); reflexivity.
Qed.

(** What [callChatbotAPI] does to the state: one request, which carries
    the history; in the [catch] block a log line and the advisory. *)
Lemma callChatbotAPI_effect messages userMessage answer s :
  let s' := snd (callChatbotAPI toLowerCase messages userMessage answer s) in
  chat_messages (db s') = chat_messages (db s)
  /\ clock (db s') = clock (db s)
  /\ next_id (db s') = next_id (db s)
  /\ trace (db s')
     = trace (db s)
       ++ FetchRequest userMessage (map history_entry messages)
       :: (if caught answer then [ConsoleError (units "Chatbot API error:")] else []).
Proof.
  destruct s as [[rows now nid tr] c].
  destruct answer as [|status [| |[r|]]]; run; unfold caught;
    try destruct (ok status); cbv beta iota delta [negb orb];
    rewrite <- ?app_assoc; repeat split; reflexivity.
Qed.

(** C6. Turn ordering: for every accepted submission (a session is
    selected, a user is signed in, the trimmed text is not empty, no turn
    is in flight) whose two inserts the store accepts, whatever the remote
    endpoint answers, the table gains exactly two rows, at its end: the
    row of the user (not from the assistant, holding the trimmed text),
    then the row of the assistant; both belong to the session, so the
    list of the session gains exactly these two, in this order; the row
    of the user is stored first (it gets the earlier identifier) and its
    time is not later than the time of the row of the assistant. *)
Theorem turn_appends_user_then_assistant
  (env : turn) (s : app) (cs : ChatSession.t) (u : User.t) (e1 e2 : N) :
  currentSession (view s) = Some cs ->
  user_ctx (view s) = Some u ->
  truthy (trim (input (view s))) = true ->
  loading (view s) = false ->
  userInsert env = Inserted e1 ->
  botInsert env = Inserted e2 ->
  exists um bm : ChatMessage.t,
    chat_messages (db (submit toLowerCase env s)) = chat_messages (db s) ++ [um; bm]
    /\ of_session (ChatSession.id cs) (chat_messages (db (submit toLowerCase env s)))
       = of_session (ChatSession.id cs) (chat_messages (db s)) ++ [um; bm]
    /\ ChatMessage.is_bot um = false
    /\ ChatMessage.message um = trim (input (view s))
    /\ ChatMessage.is_bot bm = true
    /\ ChatMessage.message bm
       = fst (callChatbotAPI toLowerCase (messages (view s)) (trim (input (view s)))
                (remote env) s)
    /\ ChatMessage.id um = next_id (db s)
    /\ ChatMessage.id bm = N.succ (next_id (db s))
    /\ clock (db s) <= ChatMessage.created_at um
    /\ ChatMessage.created_at um <= ChatMessage.created_at bm.
Proof.
  intros Hcs Hu Ht Hl Hi1 Hi2. open_state s env. accepted Ht.
  answers; run; try destruct (ok status); cbv beta iota;
    rewrite <- !app_assoc; cbn [List.app];
    (eexists; eexists; split; [reflexivity|]);
    (split; [rewrite of_session_app; apply f_equal; apply of_session_own;
             cbn [forallb ChatMessage.session_id]; rewrite N.eqb_refl; reflexivity|]);
    run; repeat split; lia.
Qed.

(** The guard of [sendMessage]: when the text is empty or made of white
    space only, or no session is selected, or the [loading] cell is set, the
    handler returns at once and the application is unchanged. *)
Lemma guard_rejects (env : turn) (s : app) :
  forallb isWhiteSpace (input (view s)) = true
  \/ currentSession (view s) = None
  \/ loading (view s) = true ->
  sendMessage toLowerCase env (view s) s = (tt, s)
  /\ submit toLowerCase env s = s.
Proof.
  intros H. assert (E : sendMessage toLowerCase env (view s) s = (tt, s)).
  { unfold sendMessage.
    destruct (currentSession (view s)) as [cs|] eqn:Hcs; [|reflexivity].
    destruct (user_ctx (view s)) as [u|]; [|reflexivity].
    destruct H as [H | [H | H]].
    - apply trim_nil in H. rewrite H. reflexivity.
    - discriminate.
    - rewrite H, orb_true_r. reflexivity. }
  split; [exact E | unfold submit; now rewrite E].
Qed.

(** Without a signed-in user the handler returns at once as well. *)
Lemma sendMessage_needs_user (env : turn) (s : app) :
  user_ctx (view s) = None -> submit toLowerCase env s = s.
Proof.
  intros H. unfold submit, sendMessage. rewrite H.
  destruct (currentSession (view s)); reflexivity.
Qed.

(** C3, amended. When the store refuses the row of the user, the turn
    aborts: nothing is stored, the trace gains the refused insert and one
    log line and nothing else (no request to the remote endpoint, no
    insert of an assistant row), the transcript is as before and the
    [loading] cell is reset; the input box, emptied when the submission
    was accepted, stays empty. *)
Theorem user_insert_error_aborts
  (env : turn) (s : app) (cs : ChatSession.t) (u : User.t) :
  currentSession (view s) = Some cs ->
  user_ctx (view s) = Some u ->
  truthy (trim (input (view s))) = true ->
  loading (view s) = false ->
  userInsert env = InsertError ->
  let s' := submit toLowerCase env s in
  chat_messages (db s') = chat_messages (db s)
  /\ clock (db s') = clock (db s)
  /\ next_id (db s') = next_id (db s)
  /\ trace (db s')
     = trace (db s)
       ++ [InsertRequest
             {| NewMessage.session_id := ChatSession.id cs;
                NewMessage.user_id := User.id u;
                NewMessage.message := trim (input (view s));
                NewMessage.is_bot := false |};
           ConsoleError (units "Error sending message:")]
  /\ fetches (trace (db s')) = fetches (trace (db s))
  /\ bot_replies (trace (db s')) = bot_replies (trace (db s))
  /\ messages (view s') = messages (view s)
  /\ currentSession (view s') = currentSession (view s)
  /\ loading (view s') = false
  /\ apiError (view s') = []
  /\ input (view s') = [].
Proof.
  intros Hcs Hu Ht Hl Hi. open_state s env. accepted Ht. run.
  rewrite <- app_assoc, fetches_app, bot_replies_app. cbn [List.app fetches bot_replies].
  rewrite !app_nil_r. repeat split; reflexivity.
Qed.

(** C4, amended. For an accepted submission whose user row is stored,
    the turn asks the store to insert exactly one assistant row.
    - When [fetch] rejects, or the status is not a success, or the body of
      a success is not JSON or is [null], its text is the response of the
      fallback responder to the trimmed text of the user, and to it alone.
    - When the status is a success and the JSON body has no [response],
      or an empty one, its text is the fixed acknowledgement, not the
      response of the fallback responder. *)
Theorem reply_after_remote_failure
  (env : turn) (s : app) (cs : ChatSession.t) (u : User.t) (e : N) :
  currentSession (view s) = Some cs ->
  user_ctx (view s) = Some u ->
  truthy (trim (input (view s))) = true ->
  loading (view s) = false ->
  userInsert env = Inserted e ->
  (caught (remote env) = true ->
   bot_replies (trace (db (submit toLowerCase env s)))
   = bot_replies (trace (db s))
     ++ [Client.generateFallbackResponse toLowerCase (trim (input (view s)))])
  /\ (forall (status : N) (r : option jsstring),
        remote env = Responded status (Json r) ->
        ok status = true ->
        r = None \/ r = Some [] ->
        bot_replies (trace (db (submit toLowerCase env s)))
        = bot_replies (trace (db s)) ++ [acknowledgement]).
Proof.
  intros Hcs Hu Ht Hl Hi. open_state s env. accepted Ht.
  split.
  - intros Hc. unfold caught in Hc.
    answers; run; try (destruct (ok status); cbv beta iota in * );
      try discriminate;
      rewrite !bot_replies_app; cbn [List.app bot_replies NewMessage.is_bot NewMessage.message];
      rewrite ?app_nil_r; reflexivity.
  - intros status r Hr Hok Hblank. subst rm.
    destruct Hblank as [-> | ->]; answers; run; rewrite Hok; cbv beta iota;
      rewrite !bot_replies_app; cbn [List.app bot_replies NewMessage.is_bot NewMessage.message truthy];
      rewrite ?app_nil_r; reflexivity.
Qed.

(** C9. The fallback does not see the history: whenever the [catch]
    block runs, the reply is the response of the fallback responder to
    the user text, the same for any two transcripts and any two states of
    the application; the transcript goes into the request to the remote
    endpoint, one entry per message with its role, and nowhere else. *)
Theorem fallback_ignores_history
  (userMessage : jsstring) (answer : fetch_outcome)
  (messages1 messages2 : list ChatMessage.t) (s1 s2 : app) :
  caught answer = true ->
  fst (callChatbotAPI toLowerCase messages1 userMessage answer s1)
  = fst (callChatbotAPI toLowerCase messages2 userMessage answer s2)
  /\ fst (callChatbotAPI toLowerCase messages1 userMessage answer s1)
     = Client.generateFallbackResponse toLowerCase userMessage
  /\ trace (db (snd (callChatbotAPI toLowerCase messages1 userMessage answer s1)))
     = trace (db s1)
       ++ [FetchRequest userMessage (map history_entry messages1);
           ConsoleError (units "Chatbot API error:")].
Proof.
  intros H. rewrite !callChatbotAPI_caught by exact H.
  repeat split. destruct s1 as [[rows now nid tr] c]. run.
  now rewrite <- app_assoc.
Qed.

End Turn.

(** ** The turn on concrete submissions *)

Lemma turn_appends_user_then_assistant_witness :
  exists um bm : ChatMessage.t,
    chat_messages (db (submit toLowerCase_ascii (all_fine NetworkError) (app0 (units " hello "))))
    = earlier ++ [um; bm]
    /\ ChatMessage.message um = units "hello"
    /\ ChatMessage.is_bot um = false
    /\ ChatMessage.is_bot bm = true
    /\ ChatMessage.created_at um <= ChatMessage.created_at bm.
Proof.
  destruct (turn_appends_user_then_assistant toLowerCase_ascii
              (all_fine NetworkError) (app0 (units " hello "))
              session7 {| User.id := 1 |} 3 2)
    as (um & bm & Hrows & _ & Hu & Hm & Hb & _ & _ & _ & _ & Hle);
    try reflexivity.
  exists um, bm. repeat split; assumption.
Defined.

(** C3, as stated, fails: the store refuses the row of the user and the
    text "hello" is gone from the input box ([setInput('')] runs before the
    insert and nothing puts the text back). *)
Lemma input_cleared_counterexample :
  let s := app0 (units "hello") in
  let s' := submit toLowerCase_ascii store_refuses s in
  userInsert store_refuses = InsertError
  /\ input (view s) = units "hello"
  /\ input (view s') = []
  /\ input (view s') <> input (view s).
Proof.
  cbv zeta. repeat split; try (vm_compute; reflexivity).
  vm_compute. discriminate.
Qed.

Lemma user_insert_error_aborts_witness :
  let s' := submit toLowerCase_ascii store_refuses (app0 (units "hello")) in
  chat_messages (db s') = earlier
  /\ fetches (trace (db s')) = []
  /\ bot_replies (trace (db s')) = []
  /\ loading (view s') = false
  /\ input (view s') = [].
Proof.
  destruct (user_insert_error_aborts toLowerCase_ascii store_refuses
              (app0 (units "hello")) session7 {| User.id := 1 |})
    as (Hrows & _ & _ & _ & Hf & Hb & _ & _ & Hl & _ & Hi);
    try reflexivity.
  cbv zeta. repeat split; assumption.
Defined.

(** C4, as stated, fails: the endpoint answers 200 with the body [{}], a
    success without a reply field; the assistant row holds the fixed
    acknowledgement, while the fallback responder would have answered "I
    feel anxious" with the anxiety response. *)
Lemma blank_reply_counterexample :
  let userMessage := units "I feel anxious" in
  let env := all_fine (Responded 200 (Json None)) in
  caught (remote env) = false
  /\ bot_replies (trace (db (submit toLowerCase_ascii env (app0 userMessage))))
     = [acknowledgement]
  /\ Client.generateFallbackResponse toLowerCase_ascii userMessage = Client.anxiety_text
  /\ acknowledgement <> Client.generateFallbackResponse toLowerCase_ascii userMessage.
Proof.
  cbv zeta. repeat split; try (vm_compute; reflexivity).
  intros H. apply (f_equal (@List.length code_unit)) in H. vm_compute in H. discriminate.
Qed.

Lemma reply_after_remote_failure_witness :
  bot_replies (trace (db (submit toLowerCase_ascii (all_fine (Responded 503 NotJson))
                            (app0 (units "I feel anxious")))))
  = [Client.anxiety_text]
  /\ bot_replies (trace (db (submit toLowerCase_ascii (all_fine (Responded 200 (Json (Some []))))
                               (app0 (units "I feel anxious")))))
     = [acknowledgement].
Proof.
  split.
  - apply (reply_after_remote_failure toLowerCase_ascii (all_fine (Responded 503 NotJson))
             (app0 (units "I feel anxious")) session7 {| User.id := 1 |} 3);
      reflexivity.
  - apply (reply_after_remote_failure toLowerCase_ascii
             (all_fine (Responded 200 (Json (Some []))))
             (app0 (units "I feel anxious")) session7 {| User.id := 1 |} 3)
      with (status := 200) (r := Some []);
      try reflexivity. right. reflexivity.
Defined.

Lemma fallback_ignores_history_witness :
  fst (callChatbotAPI toLowerCase_ascii earlier (units "I can't sleep") NetworkError
         (app0 []))
  = fst (callChatbotAPI toLowerCase_ascii [] (units "I can't sleep") NetworkError
           (app0 (units "x")))
  /\ fst (callChatbotAPI toLowerCase_ascii earlier (units "I can't sleep") NetworkError
            (app0 []))
     = Client.sleep_text.
Proof.
  destruct (fallback_ignores_history toLowerCase_ascii (units "I can't sleep")
              NetworkError earlier [] (app0 []) (app0 (units "x")))
    as (H1 & H2 & _); [reflexivity|].
  split; [exact H1 | rewrite H2; vm_compute; reflexivity].
Defined.

(** ** The transcript *)

Lemma place_head (m : ChatMessage.t) (l : list ChatMessage.t) :
  Forall (by_time m) l -> place m l = m :: l.
Proof.
  intros H. destruct l as [|x l]; [reflexivity|]. simpl.
  apply Forall_inv in H. unfold by_time in H.
  apply N.leb_le in H. now rewrite H.
Qed.

(** Ordering by time leaves a list alone that is ordered already. *)
Lemma order_by_created_at_sorted (l : list ChatMessage.t) :
  StronglySorted by_time l -> order_by_created_at l = l.
Proof.
  induction 1 as [|x l Hs IH Hx]; [reflexivity|].
  unfold order_by_created_at in *. simpl. rewrite IH. now apply place_head.
Qed.

Lemma of_session_sorted (sid : uuid) (l : list ChatMessage.t) :
  StronglySorted by_time l -> StronglySorted by_time (of_session sid l).
Proof.
  induction 1 as [|x l Hs IH Hx]; simpl; [constructor|].
  destruct (ChatMessage.session_id x =? sid); [|exact IH].
  constructor; [exact IH|].
  apply Forall_forall. intros y Hy. apply filter_In in Hy as [Hy _].
  rewrite Forall_forall in Hx. now apply Hx.
Qed.

(** A row stamped between the old clock and the new one keeps the table
    chronological. *)
Lemma chronological_rows_snoc (l : list ChatMessage.t) (m : ChatMessage.t)
      (now now' : timestamp) :
  chronological_rows l now ->
  now <= ChatMessage.created_at m ->
  ChatMessage.created_at m <= now' ->
  chronological_rows (l ++ [m]) now'.
Proof.
  intros [Hs Hb] H1 H2. split.
  - induction Hs as [|x l Hs IH Hx]; simpl.
    + constructor; constructor.
    + inversion Hb as [|? ? Hbx Hbl]; subst. constructor.
      * now apply IH.
      * apply Forall_app. split; [exact Hx|].
        constructor; [unfold by_time; lia | constructor].
  - apply Forall_app. split.
    + eapply Forall_impl; [|exact Hb]. simpl. intros; lia.
    + constructor; [exact H2 | constructor].
Qed.

Lemma chronological_rows_later (l : list ChatMessage.t) (now now' : timestamp) :
  chronological_rows l now -> now <= now' -> chronological_rows l now'.
Proof.
  intros [Hs Hb] H. split; [exact Hs|].
  eapply Forall_impl; [|exact Hb]. simpl. intros; lia.
Qed.

Section Transcript.
Variable toLowerCase : jsstring -> jsstring.

Local Opaque units trim Client.generateFallbackResponse order_by_created_at of_session.

(** A turn keeps the table chronological, whatever the collaborators
    answer. *)
Lemma submit_chronological (env : turn) (s : app) :
  chronological (db s) -> chronological (db (submit toLowerCase env s)).
Proof.
  intros H. unfold submit, sendMessage.
  destruct (currentSession (view s)) as [cs|]; [|exact H].
  destruct (user_ctx (view s)) as [u|]; [|exact H].
  destruct (negb (truthy (trim (input (view s)))) || loading (view s)); [exact H|].
  unfold chronological in *. open_state s env.
  destruct ui as [e1|]; [|run; exact H].
  destruct bi as [e2|]; answers; run; try destruct (ok status); cbv beta iota;
    try (eapply chronological_rows_snoc;
         [eapply chronological_rows_snoc; [exact H | run; lia | run; reflexivity]
         | run; lia | run; lia]);
    (eapply chronological_rows_snoc; [exact H | run; lia | run; lia]).
Qed.

(** After an accepted turn whose inserts and last reload succeed on a
    chronological table, the transcript on screen is the list of the
    session as stored, in the order of insertion: the earlier messages,
    the message of the user, the reply. *)
Lemma transcript_after_turn
  (env : turn) (s : app) (cs : ChatSession.t) (u : User.t) (e1 e2 : N) :
  currentSession (view s) = Some cs ->
  user_ctx (view s) = Some u ->
  truthy (trim (input (view s))) = true ->
  loading (view s) = false ->
  userInsert env = Inserted e1 ->
  botInsert env = Inserted e2 ->
  secondLoad env = Selected ->
  chronological (db s) ->
  messages (view (submit toLowerCase env s))
  = of_session (ChatSession.id cs) (chat_messages (db (submit toLowerCase env s))).
Proof.
  intros Hcs Hu Ht Hl Hi1 Hi2 Hs2 Hw.
  assert (Hw' := submit_chronological env s Hw).
  destruct Hw' as [Hsorted _].
  apply (of_session_sorted (ChatSession.id cs)) in Hsorted.
  apply order_by_created_at_sorted in Hsorted.
  rewrite <- Hsorted. clear Hsorted Hw.
  open_state s env. accepted Ht.
  answers; run; try destruct (ok status); reflexivity.
Qed.

End Transcript.

(** * Further properties of the turn *)

Lemma trimStart_head (s t : jsstring) (c : code_unit) :
  trimStart s = c :: t -> isWhiteSpace c = false.
Proof.
  induction s as [|x s IH]; simpl; [discriminate|].
  destruct (isWhiteSpace x) eqn:E; [exact IH|].
  intros H. injection H as <- _. exact E.
Qed.

(** What [trim] leaves, when it leaves something, has no white space at
    either end. *)
Lemma trim_trimmed (s : jsstring) :
  truthy (trim s) = true -> trimmed (trim s) = true.
Proof.
  unfold trim, trimEnd. intros H.
  destruct (trimStart_suffix (rev (trimStart s))) as [a [Ha _]].
  destruct (trimStart (rev (trimStart s))) as [|c r] eqn:Er; [discriminate|].
  apply trimStart_head in Er.
  apply (f_equal (@rev code_unit)) in Ha.
  rewrite rev_involutive, rev_app_distr in Ha.
  simpl in *. destruct (rev r ++ [c]) as [|d x] eqn:Ex.
  - now destruct (rev r).
  - simpl in Ha. apply trimStart_head in Ha.
    unfold trimmed. rewrite Ha, <- Ex, last_last, Er. reflexivity.
Qed.

Lemma place_In (m x : ChatMessage.t) (l : list ChatMessage.t) :
  In m (place x l) <-> m = x \/ In m l.
Proof.
  induction l as [|y l IH]; simpl.
  - intuition congruence.
  - destruct (ChatMessage.created_at x <=? ChatMessage.created_at y); simpl.
    + intuition congruence.
    + rewrite IH. intuition congruence.
Qed.

(** Ordering by time neither adds nor loses a row. *)
Lemma order_by_created_at_In (m : ChatMessage.t) (l : list ChatMessage.t) :
  In m (order_by_created_at l) <-> In m l.
Proof.
  unfold order_by_created_at. induction l as [|x l IH]; simpl; [tauto|].
  rewrite place_In, IH. intuition congruence.
Qed.

Lemma loaded_rows_stored (sid : uuid) (l : list ChatMessage.t) :
  Forall (fun m => In m l /\ ChatMessage.session_id m = sid)
         (order_by_created_at (of_session sid l)).
Proof.
  apply Forall_forall. intros m Hm.
  apply (proj1 (order_by_created_at_In _ _)) in Hm. unfold of_session in Hm.
  apply filter_In in Hm as [Hin Hs]. apply N.eqb_eq in Hs. now split.
Qed.

Section TurnFacts.
Variable toLowerCase : jsstring -> jsstring.

Local Opaque units trim Client.generateFallbackResponse order_by_created_at of_session.

(** The state after an accepted turn whose two inserts succeed. *)
Lemma accepted_turn_post
  (env : turn) (s : app) (cs : ChatSession.t) (u : User.t) (e1 e2 : N) :
  currentSession (view s) = Some cs ->
  user_ctx (view s) = Some u ->
  truthy (trim (input (view s))) = true ->
  loading (view s) = false ->
  userInsert env = Inserted e1 ->
  botInsert env = Inserted e2 ->
  exists um bm : ChatMessage.t,
    chat_messages (db (submit toLowerCase env s)) = chat_messages (db s) ++ [um; bm]
    /\ (ChatMessage.session_id um = ChatSession.id cs
        /\ ChatMessage.session_id bm = ChatSession.id cs)
    /\ (ChatMessage.is_bot um = false /\ ChatMessage.is_bot bm = true)
    /\ ChatMessage.message um = trim (input (view s))
    /\ (clock (db s) <= ChatMessage.created_at um
        /\ ChatMessage.created_at um <= ChatMessage.created_at bm
        /\ ChatMessage.created_at bm <= clock (db (submit toLowerCase env s)))
    /\ fetches (trace (db (submit toLowerCase env s)))
       = fetches (trace (db s))
         ++ [(trim (input (view s)), map history_entry (messages (view s)))]
    /\ currentSession (view (submit toLowerCase env s)) = Some cs
    /\ user_ctx (view (submit toLowerCase env s)) = Some u
    /\ loading (view (submit toLowerCase env s)) = false
    /\ input (view (submit toLowerCase env s)) = [].
Proof.
  intros Hcs Hu Ht Hl Hi1 Hi2. open_state s env. accepted Ht.
  answers; run; try destruct (ok status); cbv beta iota;
    rewrite <- !app_assoc; cbn [List.app];
    (eexists; eexists; split; [reflexivity|]);
    rewrite !fetches_app; cbn [fetches List.app]; rewrite ?app_nil_r;
    run; repeat split; lia.
Qed.

Lemma onChange_state (value : jsstring) (s : app) :
  db (onChange value s) = db s
  /\ currentSession (view (onChange value s)) = currentSession (view s)
  /\ user_ctx (view (onChange value s)) = user_ctx (view s)
  /\ loading (view (onChange value s)) = loading (view s)
  /\ messages (view (onChange value s)) = messages (view s)
  /\ input (view (onChange value s)) = value.
Proof. destruct s as [w c]. repeat split. Qed.

(** X2. A turn leaves the selection alone and never leaves the form
    locked: whatever the collaborators answer, accepted or not, after the
    handler the signed-in user, the list of sessions and the selected
    session are as before, and so is the [loading] cell (unset, for a turn
    that was accepted). *)
Theorem turn_keeps_selection_and_lock (env : turn) (s : app) :
  user_ctx (view (submit toLowerCase env s)) = user_ctx (view s)
  /\ sessions (view (submit toLowerCase env s)) = sessions (view s)
  /\ currentSession (view (submit toLowerCase env s)) = currentSession (view s)
  /\ loading (view (submit toLowerCase env s)) = loading (view s).
Proof.
  open_state s env. unfold submit, sendMessage.
  cbn [view currentSession user_ctx input loading].
  destruct cur as [cs|], uc as [u|]; try (repeat split; reflexivity).
  destruct (truthy (trim inp)), ld; cbn [negb orb];
    try (repeat split; reflexivity).
  answers; run; try destruct (ok status); repeat split; reflexivity.
Qed.

(** X3. The advisory is shown exactly when the fallback answered: after
    an accepted turn the [apiError] cell holds "Connection issue. Using
    fallback response." when the row of the user was stored and the remote
    call ended in the [catch] block, and is empty otherwise, whatever it
    held before. *)
Theorem advisory_iff_fallback
  (env : turn) (s : app) (cs : ChatSession.t) (u : User.t) :
  currentSession (view s) = Some cs ->
  user_ctx (view s) = Some u ->
  truthy (trim (input (view s))) = true ->
  loading (view s) = false ->
  apiError (view (submit toLowerCase env s))
  = match userInsert env with
    | Inserted _ =>
        if caught (remote env)
        then units "Connection issue. Using fallback response."
        else []
    | InsertError => []
    end.
Proof.
  intros Hcs Hu Ht Hl. open_state s env. accepted Ht.
  unfold caught.
  answers; run; try destruct (ok status); reflexivity.
Qed.

(** X4. The transcript shows stored rows only: every message on screen
    after the handler was on screen before it, or is a row of the table
    that belongs to the selected session. A reply reaches the screen through
    the table, never straight from [callChatbotAPI]. *)
Theorem transcript_shows_stored_rows (env : turn) (s : app) :
  Forall (fun m =>
            In m (messages (view s))
            \/ (In m (chat_messages (db (submit toLowerCase env s)))
                /\ option_map ChatSession.id (currentSession (view s))
                   = Some (ChatMessage.session_id m)))
         (messages (view (submit toLowerCase env s))).
Proof.
  assert (Hold : forall (P : ChatMessage.t -> Prop) l,
             Forall (fun m => In m l \/ P m) l).
  { intros P l. apply Forall_forall. intros m Hm. now left. }
  open_state s env. unfold submit, sendMessage.
  cbn [view currentSession user_ctx input loading].
  destruct cur as [cs|], uc as [u|]; try apply Hold.
  destruct (truthy (trim inp)), ld; cbn [negb orb]; try apply Hold.
  answers; run; try destruct (ok status); cbv beta iota;
    try apply Hold;
    (apply Forall_forall; intros m Hm;
     pose proof (proj1 (Forall_forall _ _) (loaded_rows_stored _ _) m Hm) as [Hin Hsid];
     right; split; [|cbn [option_map]; apply f_equal; symmetry; exact Hsid];
     rewrite ?in_app_iff in *; tauto).
Qed.

(** X5. A refused reply is dropped: when the store accepts the row of the
    user and refuses the row of the assistant, the table gains the row of
    the user and nothing else; the insert of the reply was asked once and
    is not repeated; the transcript is not reloaded after it, so the screen
    shows what the reload after the row of the user gave (or what it showed
    before, when that reload failed); the form is unlocked. *)
Theorem refused_reply_is_dropped
  (env : turn) (s : app) (cs : ChatSession.t) (u : User.t) (e1 : N) :
  currentSession (view s) = Some cs ->
  user_ctx (view s) = Some u ->
  truthy (trim (input (view s))) = true ->
  loading (view s) = false ->
  userInsert env = Inserted e1 ->
  botInsert env = InsertError ->
  exists um : ChatMessage.t,
    chat_messages (db (submit toLowerCase env s)) = chat_messages (db s) ++ [um]
    /\ ChatMessage.is_bot um = false
    /\ ChatMessage.message um = trim (input (view s))
    /\ List.length (bot_replies (trace (db (submit toLowerCase env s))))
       = S (List.length (bot_replies (trace (db s))))
    /\ messages (view (submit toLowerCase env s))
       = match firstLoad env with
         | Selected =>
             order_by_created_at
               (of_session (ChatSession.id cs)
                  (chat_messages (db (submit toLowerCase env s))))
         | SelectError => messages (view s)
         end
    /\ loading (view (submit toLowerCase env s)) = false.
Proof.
  intros Hcs Hu Ht Hl Hi1 Hi2. open_state s env. accepted Ht.
  answers; run; try destruct (ok status); cbv beta iota;
    (eexists; split; [reflexivity|]);
    rewrite !bot_replies_app, !length_app;
    cbn [bot_replies NewMessage.is_bot List.length List.app];
    run; repeat split; lia.
Qed.

(** X6. The text of the user is stored trimmed: the first thing an
    accepted turn does is to ask the store to insert a row for the selected
    session and the signed-in user, not from the assistant, whose text is
    the input without the white space around it; this text is not empty and
    neither begins nor ends with white space. *)
Theorem user_row_is_trimmed
  (env : turn) (s : app) (cs : ChatSession.t) (u : User.t) :
  currentSession (view s) = Some cs ->
  user_ctx (view s) = Some u ->
  truthy (trim (input (view s))) = true ->
  loading (view s) = false ->
  trimmed (trim (input (view s))) = true
  /\ exists rest : list event,
       trace (db (submit toLowerCase env s))
       = trace (db s)
         ++ InsertRequest
              {| NewMessage.session_id := ChatSession.id cs;
                 NewMessage.user_id := User.id u;
                 NewMessage.message := trim (input (view s));
                 NewMessage.is_bot := false |}
         :: rest.
Proof.
  intros Hcs Hu Ht Hl. split; [now apply trim_trimmed|].
  open_state s env. accepted Ht.
  answers; run; try destruct (ok status); cbv beta iota;
    rewrite <- !app_assoc; cbn [List.app]; eexists; reflexivity.
Qed.

(** The request an accepted turn sends to the remote endpoint, once the
    row of the user is stored. *)
Lemma accepted_turn_fetch
  (env : turn) (s : app) (cs : ChatSession.t) (u : User.t) (e1 : N) :
  currentSession (view s) = Some cs ->
  user_ctx (view s) = Some u ->
  truthy (trim (input (view s))) = true ->
  loading (view s) = false ->
  userInsert env = Inserted e1 ->
  fetches (trace (db (submit toLowerCase env s)))
  = fetches (trace (db s))
    ++ [(trim (input (view s)), map history_entry (messages (view s)))].
Proof.
  intros Hcs Hu Ht Hl Hi1. open_state s env. accepted Ht.
  answers; run; try destruct (ok status); cbv beta iota;
    rewrite !fetches_app; cbn [fetches List.app]; rewrite ?app_nil_r;
    reflexivity.
Qed.

(** X7. Two turns do not interleave: when a turn is accepted and stored,
    the user types again and a second turn is accepted and stored, the
    table gains four rows at its end, in the order user, assistant, user,
    assistant, all of the selected session, holding the two trimmed texts
    of the user, with times that do not decrease. *)
Theorem two_turns_in_order
  (env1 env2 : turn) (s : app) (cs : ChatSession.t) (u : User.t)
  (text2 : jsstring) (e1 e2 e3 e4 : N) :
  currentSession (view s) = Some cs ->
  user_ctx (view s) = Some u ->
  truthy (trim (input (view s))) = true ->
  loading (view s) = false ->
  userInsert env1 = Inserted e1 ->
  botInsert env1 = Inserted e2 ->
  truthy (trim text2) = true ->
  userInsert env2 = Inserted e3 ->
  botInsert env2 = Inserted e4 ->
  exists u1 b1 u2 b2 : ChatMessage.t,
    chat_messages
      (db (submit toLowerCase env2 (onChange text2 (submit toLowerCase env1 s))))
    = chat_messages (db s) ++ [u1; b1; u2; b2]
    /\ map ChatMessage.is_bot [u1; b1; u2; b2] = [false; true; false; true]
    /\ map ChatMessage.session_id [u1; b1; u2; b2]
       = [ChatSession.id cs; ChatSession.id cs; ChatSession.id cs; ChatSession.id cs]
    /\ ChatMessage.message u1 = trim (input (view s))
    /\ ChatMessage.message u2 = trim text2
    /\ ChatMessage.created_at u1 <= ChatMessage.created_at b1
    /\ ChatMessage.created_at b1 <= ChatMessage.created_at u2
    /\ ChatMessage.created_at u2 <= ChatMessage.created_at b2.
Proof.
  intros Hcs Hu Ht Hl Hi1 Hi2 Ht2 Hi3 Hi4.
  destruct (accepted_turn_post env1 s cs u e1 e2 Hcs Hu Ht Hl Hi1 Hi2)
    as (u1 & b1 & Hrows1 & [Hs1 Hs1'] & [Hb1 Hb1'] & Hm1 & (Hc1 & Hc1' & Hc1'')
        & _ & Hcs1 & Hu1 & Hl1 & _).
  destruct (onChange_state text2 (submit toLowerCase env1 s))
    as (Hdb & Hcs2 & Hu2 & Hl2 & _ & Hin2).
  destruct (accepted_turn_post env2 (onChange text2 (submit toLowerCase env1 s))
              cs u e3 e4)
    as (u2 & b2 & Hrows2 & [Hs2 Hs2'] & [Hb2 Hb2'] & Hm2 & (Hc2 & Hc2' & _) & _);
    try congruence.
  exists u1, b1, u2, b2.
  rewrite Hrows2, Hdb, Hrows1, <- app_assoc. cbn [List.app map].
  rewrite Hb1, Hb1', Hb2, Hb2', Hs1, Hs1', Hs2, Hs2', Hm2, Hin2.
  rewrite Hdb in Hc2. repeat split; try assumption. lia.
Qed.

(** X8. A stored turn reaches the screen and the next request: when a
    turn is accepted, its two rows are stored and the reload after them
    succeeds, on a chronological table, the transcript on screen is the
    list of the session as it was stored before, then the message of the
    user, then the reply; and when the user types again and the next turn
    is accepted and its user row stored, the history this next turn sends
    to the remote endpoint is exactly that transcript, while the new text
    travels in [message] only. *)
Theorem next_turn_sends_the_transcript
  (env1 env2 : turn) (s : app) (cs : ChatSession.t) (u : User.t)
  (text2 : jsstring) (e1 e2 e3 : N) :
  currentSession (view s) = Some cs ->
  user_ctx (view s) = Some u ->
  truthy (trim (input (view s))) = true ->
  loading (view s) = false ->
  userInsert env1 = Inserted e1 ->
  botInsert env1 = Inserted e2 ->
  secondLoad env1 = Selected ->
  chronological (db s) ->
  truthy (trim text2) = true ->
  userInsert env2 = Inserted e3 ->
  exists u1 b1 : ChatMessage.t,
    messages (view (submit toLowerCase env1 s))
    = of_session (ChatSession.id cs) (chat_messages (db s)) ++ [u1; b1]
    /\ history_entry u1 = (Role.user, trim (input (view s)))
    /\ fst (history_entry b1) = Role.assistant
    /\ fetches
         (trace (db (submit toLowerCase env2
                       (onChange text2 (submit toLowerCase env1 s)))))
       = fetches (trace (db s))
         ++ [(trim (input (view s)), map history_entry (messages (view s)));
             (trim text2,
              map history_entry
                (of_session (ChatSession.id cs) (chat_messages (db s)) ++ [u1; b1]))].
Proof.
  intros Hcs Hu Ht Hl Hi1 Hi2 Hs2 Hw Ht2 Hi3.
  pose proof (transcript_after_turn toLowerCase env1 s cs u e1 e2
                Hcs Hu Ht Hl Hi1 Hi2 Hs2 Hw) as Hscreen.
  destruct (accepted_turn_post env1 s cs u e1 e2 Hcs Hu Ht Hl Hi1 Hi2)
    as (u1 & b1 & Hrows1 & [Hs1 Hs1'] & [Hb1 Hb1'] & Hm1 & _
        & Hf1 & Hcs1 & Hu1 & Hl1 & _).
  destruct (onChange_state text2 (submit toLowerCase env1 s))
    as (Hdb & Hcs2 & Hu2 & Hl2 & Hms2 & Hin2).
  assert (Hshown : messages (view (submit toLowerCase env1 s))
                   = of_session (ChatSession.id cs) (chat_messages (db s)) ++ [u1; b1]).
  { rewrite Hscreen, Hrows1, of_session_app. apply f_equal.
    apply of_session_own. cbn [forallb].
    rewrite Hs1, Hs1', N.eqb_refl. reflexivity. }
  exists u1, b1. split; [exact Hshown|].
  split; [unfold history_entry; now rewrite Hb1, Hm1|].
  split; [unfold history_entry; now rewrite Hb1'|].
  rewrite (accepted_turn_fetch env2 (onChange text2 (submit toLowerCase env1 s))
             cs u e3) by congruence.
  rewrite Hdb, Hf1, Hms2, Hin2, Hshown, <- app_assoc. reflexivity.
Qed.

End TurnFacts.

Lemma world0_chronological : chronological world0.
Proof.
  split.
  - repeat constructor. unfold by_time. simpl. lia.
  - repeat constructor; simpl; lia.
Qed.

Lemma advisory_iff_fallback_witness :
  apiError (view (submit toLowerCase_ascii (all_fine (Responded 500 NotJson))
                    (app0 (units "hello"))))
  = units "Connection issue. Using fallback response."
  /\ apiError (view (submit toLowerCase_ascii (all_fine (Responded 200 (Json None)))
                       (app0 (units "hello"))))
     = [].
Proof.
  split.
  - apply (advisory_iff_fallback toLowerCase_ascii (all_fine (Responded 500 NotJson))
             (app0 (units "hello")) session7 {| User.id := 1 |});
      reflexivity.
  - apply (advisory_iff_fallback toLowerCase_ascii (all_fine (Responded 200 (Json None)))
             (app0 (units "hello")) session7 {| User.id := 1 |});
      reflexivity.
Defined.

Lemma refused_reply_is_dropped_witness :
  let env :=
    {| userInsert := Inserted 3; firstLoad := Selected; remote := NetworkError;
       botInsert := InsertError; secondLoad := Selected |} in
  exists um : ChatMessage.t,
    chat_messages (db (submit toLowerCase_ascii env (app0 (units "hello"))))
    = earlier ++ [um]
    /\ ChatMessage.is_bot um = false
    /\ loading (view (submit toLowerCase_ascii env (app0 (units "hello")))) = false.
Proof.
  cbv zeta.
  destruct (refused_reply_is_dropped toLowerCase_ascii
              {| userInsert := Inserted 3; firstLoad := Selected; remote := NetworkError;
                 botInsert := InsertError; secondLoad := Selected |}
              (app0 (units "hello")) session7 {| User.id := 1 |} 3)
    as (um & Hrows & Hb & _ & _ & _ & Hl); try reflexivity.
  exists um. repeat split; assumption.
Defined.

Lemma user_row_is_trimmed_witness :
  trimmed (trim (units "  hello there ")) = true
  /\ exists rest : list event,
       trace (db (submit toLowerCase_ascii (all_fine NetworkError)
                    (app0 (units "  hello there "))))
       = InsertRequest
           {| NewMessage.session_id := 7; NewMessage.user_id := 1;
              NewMessage.message := units "hello there";
              NewMessage.is_bot := false |}
         :: rest.
Proof.
  apply (user_row_is_trimmed toLowerCase_ascii (all_fine NetworkError)
           (app0 (units "  hello there ")) session7 {| User.id := 1 |});
    reflexivity.
Defined.

Lemma two_turns_in_order_witness :
  exists u1 b1 u2 b2 : ChatMessage.t,
    chat_messages
      (db (submit toLowerCase_ascii (all_fine (Responded 200 (Json None)))
             (onChange (units "and again")
                (submit toLowerCase_ascii (all_fine NetworkError)
                   (app0 (units "hello"))))))
    = earlier ++ [u1; b1; u2; b2]
    /\ map ChatMessage.is_bot [u1; b1; u2; b2] = [false; true; false; true]
    /\ ChatMessage.message u2 = units "and again".
Proof.
  destruct (two_turns_in_order toLowerCase_ascii
              (all_fine NetworkError) (all_fine (Responded 200 (Json None)))
              (app0 (units "hello")) session7 {| User.id := 1 |}
              (units "and again") 3 2 3 2)
    as (u1 & b1 & u2 & b2 & Hrows & Hb & _ & _ & Hm & _); try reflexivity.
  exists u1, b1, u2, b2. repeat split; assumption.
Defined.

Lemma next_turn_sends_the_transcript_witness :
  exists u1 b1 : ChatMessage.t,
    messages (view (submit toLowerCase_ascii (all_fine NetworkError)
                      (app0 (units "hello"))))
    = earlier ++ [u1; b1]
    /\ history_entry u1 = (Role.user, units "hello").
Proof.
  destruct (next_turn_sends_the_transcript toLowerCase_ascii
              (all_fine NetworkError) (all_fine NetworkError)
              (app0 (units "hello")) session7 {| User.id := 1 |}
              (units "and again") 3 2 3)
    as (u1 & b1 & Hshown & Hu1 & _); try reflexivity.
  - exact world0_chronological.
  - exists u1, b1. split; assumption.
Defined.

(** * The crisis branch of the responder *)

Lemma classify_crisis (lowerMessage : jsstring) :
  classify lowerMessage = Crisis <-> crisis_branch lowerMessage = true.
Proof.
  unfold classify, crisis_branch.
  destruct (Triggers.anxiety lowerMessage), (Triggers.sadness lowerMessage),
    (Triggers.stress lowerMessage), (Triggers.sleep lowerMessage),
    (Triggers.crisis lowerMessage), (Triggers.gratitude lowerMessage);
    simpl; split; congruence.
Qed.

Lemma client_refers_iff (c : category) :
  includes (Client.response c) (units "988") = true <-> c = Crisis.
Proof. destruct c; vm_compute; split; congruence. Qed.

Lemma edge_refers_iff (c : category) :
  includes (Edge.response c) (units "988") = true <-> c = Crisis.
Proof. destruct c; vm_compute; split; congruence. Qed.

(** X9. When the referral is given: in either copy of the responder the
    reply is the crisis response, and the reply names the 988 line, exactly
    when the lower-cased message holds a crisis trigger and none of the
    anxiety, sadness, stress and sleep triggers; a gratitude trigger makes
    no difference. *)
Theorem referral_exactly_when
  (toLowerCase : jsstring -> jsstring) (userMessage : jsstring) :
  (Client.generateFallbackResponse toLowerCase userMessage = Client.crisis_text
   <-> crisis_branch (toLowerCase userMessage) = true)
  /\ (Edge.generateFallbackResponse toLowerCase userMessage = Edge.crisis_text
      <-> crisis_branch (toLowerCase userMessage) = true)
  /\ (includes (Client.generateFallbackResponse toLowerCase userMessage) (units "988") = true
      <-> crisis_branch (toLowerCase userMessage) = true)
  /\ (includes (Edge.generateFallbackResponse toLowerCase userMessage) (units "988") = true
      <-> crisis_branch (toLowerCase userMessage) = true).
Proof.
  rewrite client_by_category, edge_by_category.
  rewrite client_refers_iff, edge_refers_iff, <- classify_crisis.
  repeat split; intros H; try (now rewrite H).
  - now apply (client_response_inj _ Crisis).
  - now apply (edge_response_inj _ Crisis).
Qed.

(** * The edge function *)

Lemma strict_eq_eq (a b : jsstring) : Serve.strict_eq a b = true <-> a = b.
Proof.
  revert b; induction a as [|x a IH]; intros [|y b]; simpl;
    try (split; [discriminate | congruence]); [tauto|].
  rewrite andb_true_iff, N.eqb_eq, IH.
  split; [intros [-> ->]; reflexivity | intros H; injection H; auto].
Qed.

Lemma post_is_not_options : Serve.strict_eq (units "POST") (units "OPTIONS") = false.
Proof. reflexivity. Qed.

Lemma post_is_post : Serve.strict_eq (units "POST") (units "POST") = true.
Proof. reflexivity. Qed.

Lemma role_is_user (r : Role.t) :
  Serve.strict_eq (role_name r) (units "user")
  = match r with Role.user => true | Role.assistant => false end.
Proof. destruct r; reflexivity. Qed.

Lemma role_is_assistant (r : Role.t) :
  Serve.strict_eq (role_name r) (units "assistant")
  = match r with Role.user => false | Role.assistant => true end.
Proof. destruct r; reflexivity. Qed.

Section ServeFacts.
Variable toLowerCase : jsstring -> jsstring.
Variable key : option jsstring.

Lemma rescue_replies (error : Serve.thrown) :
  exists t : jsstring,
    Serve.rescue toLowerCase error = Serve.json_response (Serve.ResponseJson t) 200
    /\ t <> [].
Proof.
  unfold Serve.rescue. eexists. split; [reflexivity|].
  rewrite edge_by_category. apply edge_response_nonempty.
Qed.

(** The answer to a POST whose message is a string that is not empty. *)
Lemma serve_valid_post
  (req : Serve.Request) (upstream : Serve.inference)
  (message : jsstring) (history : option (list (jsstring * jsstring))) :
  Serve.method req = units "POST" ->
  Serve.json req = Serve.Parsed (Some message) history ->
  truthy message = true ->
  exists (t : jsstring) (r : Serve.InferenceRequest),
    Serve.serve toLowerCase key req upstream
    = (Serve.json_response (Serve.ResponseJson t) 200, [r])
    /\ t <> []
    /\ Serve.text r = message.
Proof.
  intros Hm Hj Ht. unfold Serve.serve.
  rewrite Hm, Hj, post_is_not_options, post_is_post, Ht. cbn [negb].
  assert (Hfb : Edge.generateFallbackResponse toLowerCase message <> []).
  { rewrite edge_by_category. apply edge_response_nonempty. }
  destruct upstream as [e | st [e | [[|c g] |]]].
  - destruct (rescue_replies e) as (t & -> & Hne). eexists; eexists; eauto.
  - destruct (ok st); cbn [negb].
    + destruct (rescue_replies e) as (t & -> & Hne). eexists; eexists; eauto.
    + eexists; eexists; eauto.
  - destruct (ok st); cbn [negb truthy]; eexists; eexists; eauto.
  - destruct (ok st); cbn [negb truthy]; eexists; eexists;
      (split; [reflexivity|]); split; try reflexivity; try assumption; discriminate.
  - destruct (ok st); cbn [negb truthy]; eexists; eexists; eauto.
Qed.

(** X10. The edge function always replies to a POST whose [message] is a
    string that is not empty, whatever its [conversationHistory] and
    whatever the inference endpoint does (reject, error status, unreadable
    or empty body): the status is 200, the headers are the JSON ones and the
    body is [{ response }] with a text that is not empty. When the history
    is absent or an array of objects, the inference endpoint is called
    exactly once, with the message as [text]. When the history is present
    and malformed, the handler throws before the call: the inference
    endpoint is not called, and the response is the one of the [catch]
    block for what was thrown. *)
Theorem serve_always_replies
  (req : Serve.Request) (upstream : Serve.inference) (message : jsstring) :
  Serve.method req = units "POST" ->
  (exists history, Serve.json req = Serve.Parsed (Some message) history)
  \/ (exists error, Serve.json req = Serve.MalformedHistory (Some message) error) ->
  truthy message = true ->
  Serve.status (fst (Serve.serve toLowerCase key req upstream)) = 200
  /\ Serve.headers (fst (Serve.serve toLowerCase key req upstream)) = Serve.jsonHeaders
  /\ (exists t : jsstring,
        Serve.body (fst (Serve.serve toLowerCase key req upstream)) = Serve.ResponseJson t
        /\ t <> [])
  /\ (forall history,
        Serve.json req = Serve.Parsed (Some message) history ->
        exists r : Serve.InferenceRequest,
          snd (Serve.serve toLowerCase key req upstream) = [r]
          /\ Serve.text r = message)
  /\ (forall error,
        Serve.json req = Serve.MalformedHistory (Some message) error ->
        Serve.serve toLowerCase key req upstream
        = (Serve.rescue toLowerCase error, [])).
Proof.
  intros Hm Hj Ht.
  assert (Hbad : forall error,
             Serve.json req = Serve.MalformedHistory (Some message) error ->
             Serve.serve toLowerCase key req upstream
             = (Serve.rescue toLowerCase error, [])).
  { intros error Hj'. unfold Serve.serve.
    rewrite Hm, Hj', post_is_not_options, post_is_post, Ht. reflexivity. }
  destruct Hj as [[history Hj] | [error Hj]].
  - destruct (serve_valid_post req upstream message history Hm Hj Ht)
      as (t & r & Hs & Hne & Hr).
    rewrite Hs. cbn [fst snd Serve.json_response Serve.status Serve.headers Serve.body].
    split; [reflexivity|]. split; [reflexivity|]. split; [|split].
    + exists t. split; [reflexivity | exact Hne].
    + intros history' _. exists r. split; [reflexivity | exact Hr].
    + intros error Hj'. congruence.
  - pose proof (Hbad error Hj) as Hs.
    destruct (rescue_replies error) as (t & Et & Hne).
    split; [rewrite Hs, Et; reflexivity|].
    split; [rewrite Hs, Et; reflexivity|]. split; [|split].
    + exists t. rewrite Hs, Et. split; [reflexivity | exact Hne].
    + intros history Hj'. congruence.
    + exact Hbad.
Qed.

(** X11. The edge function validates before it calls: the inference
    endpoint is called at most once, and only for a POST whose [message] is
    a string that is not empty; the status is 405 exactly for a method that
    is neither OPTIONS nor POST; a status other than 200 comes with an
    [{ error }] body and without a call. *)
Theorem serve_validates_first (req : Serve.Request) (upstream : Serve.inference) :
  (List.length (snd (Serve.serve toLowerCase key req upstream)) <= 1)%nat
  /\ (snd (Serve.serve toLowerCase key req upstream) <> [] ->
      Serve.method req = units "POST"
      /\ exists message history,
           Serve.json req = Serve.Parsed (Some message) history
           /\ truthy message = true)
  /\ (Serve.status (fst (Serve.serve toLowerCase key req upstream)) = 405
      <-> Serve.method req <> units "OPTIONS" /\ Serve.method req <> units "POST")
  /\ (Serve.status (fst (Serve.serve toLowerCase key req upstream)) <> 200 ->
      snd (Serve.serve toLowerCase key req upstream) = []
      /\ exists e, Serve.body (fst (Serve.serve toLowerCase key req upstream))
                   = Serve.ErrorJson e).
Proof.
  unfold Serve.serve.
  destruct (Serve.strict_eq (Serve.method req) (units "OPTIONS")) eqn:Eo.
  { apply strict_eq_eq in Eo. cbn [fst snd List.length Serve.status].
    repeat split; try tauto; try lia; try congruence; try discriminate. }
  destruct (Serve.strict_eq (Serve.method req) (units "POST")) eqn:Ep; cbn [negb].
  2:{ assert (Ho : Serve.method req <> units "OPTIONS")
        by (intros H; apply strict_eq_eq in H; congruence).
      assert (Hp : Serve.method req <> units "POST")
        by (intros H; apply strict_eq_eq in H; congruence).
      cbn. repeat split; try tauto; try lia; eauto. }
  apply strict_eq_eq in Ep.
  destruct (Serve.json req) as [e | [[|c m]|] h | [[|c m]|] e] eqn:Ej; cbn [truthy negb].
  - destruct (rescue_replies e) as (t & -> & _). cbn.
    repeat split; try tauto; try lia; try congruence; try discriminate.
  - cbn. repeat split; try tauto; try lia; try congruence; try discriminate; eauto.
  - assert (Hv : forall x : Serve.Response * list Serve.InferenceRequest,
               (exists t r, x = (Serve.json_response (Serve.ResponseJson t) 200, [r])) ->
               (List.length (snd x) <= 1)%nat
               /\ (snd x <> [] ->
                   Serve.method req = units "POST"
                   /\ exists message history,
                        Serve.Parsed (Some (c :: m)) h = Serve.Parsed (Some message) history
                        /\ truthy message = true)
               /\ (Serve.status (fst x) = 405
                   <-> Serve.method req <> units "OPTIONS"
                       /\ Serve.method req <> units "POST")
               /\ (Serve.status (fst x) <> 200 ->
                   snd x = [] /\ exists e, Serve.body (fst x) = Serve.ErrorJson e)).
    { intros x (t & r & ->). cbn.
      repeat split; try tauto; try lia; try congruence; try discriminate; eauto. }
    apply Hv. destruct upstream as [e | st [e | [[|d g] |]]];
      try destruct (ok st); cbn [negb truthy];
      try (destruct (rescue_replies e) as (t & -> & _)); eauto.
  - cbn. repeat split; try tauto; try lia; try congruence; try discriminate; eauto.
  - cbn. repeat split; try tauto; try lia; try congruence; try discriminate; eauto.
  - destruct (rescue_replies e) as (t & -> & _). cbn.
    repeat split; try tauto; try lia; try congruence; try discriminate.
  - cbn. repeat split; try tauto; try lia; try congruence; try discriminate; eauto.
Qed.

End ServeFacts.

Lemma history_users (messages : list ChatMessage.t) :
  map snd
    (filter (fun m => Serve.strict_eq (fst m) (units "user"))
       (map (fun e => (role_name (fst e), snd e)) (map history_entry messages)))
  = map ChatMessage.message (filter (fun m => negb (ChatMessage.is_bot m)) messages).
Proof.
  induction messages as [|m l IH]; [reflexivity|].
  cbn [map filter fst snd history_entry]. rewrite role_is_user.
  destruct (ChatMessage.is_bot m); cbn [negb map snd]; now rewrite IH.
Qed.

Lemma history_assistant (messages : list ChatMessage.t) :
  map snd
    (filter (fun m => Serve.strict_eq (fst m) (units "assistant"))
       (map (fun e => (role_name (fst e), snd e)) (map history_entry messages)))
  = map ChatMessage.message (filter ChatMessage.is_bot messages).
Proof.
  induction messages as [|m l IH]; [reflexivity|].
  cbn [map filter fst snd history_entry]. rewrite role_is_assistant.
  destruct (ChatMessage.is_bot m); cbn [map snd]; now rewrite IH.
Qed.

Section EndToEnd.
Variable toLowerCase : jsstring -> jsstring.
Variable key : option jsstring.

Local Opaque units trim Client.generateFallbackResponse order_by_created_at of_session.

(** X12. Every response is readable across origins: whatever the request
    and the inference endpoint, the three CORS headers are among the headers
    of the response; and every response with a body is declared as JSON. *)
Theorem serve_cors_everywhere (req : Serve.Request) (upstream : Serve.inference) :
  incl Serve.corsHeaders
       (Serve.headers (fst (Serve.serve toLowerCase key req upstream)))
  /\ (Serve.body (fst (Serve.serve toLowerCase key req upstream)) = Serve.NoContent
      \/ In (units "Content-Type", units "application/json")
            (Serve.headers (fst (Serve.serve toLowerCase key req upstream)))).
Proof.
  assert (Hj : forall c st,
             incl Serve.corsHeaders (Serve.headers (Serve.json_response c st))
             /\ (Serve.body (Serve.json_response c st) = Serve.NoContent
                 \/ In (units "Content-Type", units "application/json")
                       (Serve.headers (Serve.json_response c st)))).
  { intros c st. cbn [Serve.json_response Serve.headers]. unfold Serve.jsonHeaders.
    split; [apply incl_appl, incl_refl | right; apply in_or_app; right; now left]. }
  unfold Serve.serve, Serve.rescue.
  destruct (Serve.strict_eq (Serve.method req) (units "OPTIONS")).
  { cbn [fst Serve.headers Serve.body]. split; [apply incl_refl | now left]. }
  destruct (Serve.strict_eq (Serve.method req) (units "POST")); cbn [negb];
    [|apply Hj].
  destruct (Serve.json req) as [e | [m|] h | [m|] e]; try apply Hj.
  - destruct (truthy m); cbn [negb]; try apply Hj.
    destruct upstream as [e | st [e | g]]; try destruct (ok st); apply Hj.
  - destruct (truthy m); apply Hj.
Qed.

(** X13. When the call to the inference endpoint throws, the message of
    the user does not count: for two well-formed POST requests, whatever
    their messages and histories, and the same thrown value ([fetch]
    rejecting, or a success whose body cannot be read), the two responses
    are equal; their text is the response of the fallback responder to the
    [message] of the thrown value (to a stock phrase when it has none). *)
Theorem rescue_ignores_the_message
  (req1 req2 : Serve.Request) (m1 m2 : jsstring)
  (h1 h2 : option (list (jsstring * jsstring)))
  (error : Serve.thrown) (upstream : Serve.inference) :
  Serve.method req1 = units "POST" ->
  Serve.json req1 = Serve.Parsed (Some m1) h1 ->
  truthy m1 = true ->
  Serve.method req2 = units "POST" ->
  Serve.json req2 = Serve.Parsed (Some m2) h2 ->
  truthy m2 = true ->
  upstream = Serve.Unreachable error
  \/ (exists st, ok st = true /\ upstream = Serve.Answered st (Serve.Unreadable error)) ->
  fst (Serve.serve toLowerCase key req1 upstream)
  = fst (Serve.serve toLowerCase key req2 upstream)
  /\ fst (Serve.serve toLowerCase key req1 upstream) = Serve.rescue toLowerCase error.
Proof.
  intros Hm1 Hj1 Ht1 Hm2 Hj2 Ht2 Hup. unfold Serve.serve.
  rewrite Hm1, Hj1, Hm2, Hj2, post_is_not_options, post_is_post, Ht1, Ht2.
  cbn [negb].
  destruct Hup as [-> | (st & Hok & ->)]; [|rewrite Hok]; split; reflexivity.
Qed.

(** X14. The history is split by role for the inference endpoint: when
    the request comes from [callChatbotAPI] with a transcript, the one call
    to the inference endpoint carries the texts of the user's messages as
    [past_user_inputs] and the texts of the assistant's messages as
    [generated_responses], each in the order of the transcript and none
    left out, and the new message as [text]. *)
Theorem history_split_by_role
  (messages : list ChatMessage.t) (message : jsstring) (upstream : Serve.inference) :
  truthy message = true ->
  exists r : Serve.InferenceRequest,
    snd (Serve.serve toLowerCase key
           (posted message (map history_entry messages)) upstream) = [r]
    /\ Serve.past_user_inputs r
       = map ChatMessage.message (filter (fun m => negb (ChatMessage.is_bot m)) messages)
    /\ Serve.generated_responses r
       = map ChatMessage.message (filter ChatMessage.is_bot messages)
    /\ Serve.text r = message
    /\ (List.length (Serve.past_user_inputs r)
        + List.length (Serve.generated_responses r)
        = List.length messages)%nat.
Proof.
  intros Ht. unfold Serve.serve, posted. cbn [Serve.method Serve.json].
  rewrite post_is_not_options, post_is_post, Ht. cbn [negb].
  rewrite history_users, history_assistant.
  assert (Hlen : (List.length
                    (map ChatMessage.message
                       (filter (fun m => negb (ChatMessage.is_bot m)) messages))
                  + List.length
                      (map ChatMessage.message (filter ChatMessage.is_bot messages))
                  = List.length messages)%nat).
  { rewrite !length_map. induction messages as [|m l IH]; [reflexivity|].
    cbn [filter]. destruct (ChatMessage.is_bot m); cbn [negb List.length]; lia. }
  destruct upstream as [e | st [e | g]]; try destruct (ok st); cbn [negb snd];
    eexists; (split; [reflexivity|]); cbn [Serve.past_user_inputs
      Serve.generated_responses Serve.text]; repeat split; exact Hlen.
Qed.

(** The reply of the endpoint, when it is not empty, is used as it is. *)
Lemma verbatim_reply
  (env : turn) (s : app) (cs : ChatSession.t) (u : User.t) (e : N)
  (status : N) (c : code_unit) (r : jsstring) :
  currentSession (view s) = Some cs ->
  user_ctx (view s) = Some u ->
  truthy (trim (input (view s))) = true ->
  loading (view s) = false ->
  userInsert env = Inserted e ->
  remote env = Responded status (Json (Some (c :: r))) ->
  ok status = true ->
  bot_replies (trace (db (submit toLowerCase env s)))
  = bot_replies (trace (db s)) ++ [c :: r]
  /\ apiError (view (submit toLowerCase env s)) = [].
Proof.
  intros Hcs Hu Ht Hl Hi Hr Hok. open_state s env. accepted Ht.
  answers; run; rewrite Hok; cbv beta iota;
    rewrite !bot_replies_app;
    cbn [List.app bot_replies NewMessage.is_bot NewMessage.message truthy];
    rewrite ?app_nil_r; split; reflexivity.
Qed.

(** X15. End to end: when the request of an accepted turn reaches the
    edge function and its response comes back, then, whatever the
    inference endpoint does, the assistant row of the turn holds the text of
    the edge function's response as it is, a text that is not empty; the
    component uses neither its own fallback responder nor its
    acknowledgement, and shows no advisory. *)
Theorem edge_reply_reaches_the_user
  (env : turn) (s : app) (cs : ChatSession.t) (u : User.t) (e : N)
  (upstream : Serve.inference) :
  currentSession (view s) = Some cs ->
  user_ctx (view s) = Some u ->
  truthy (trim (input (view s))) = true ->
  loading (view s) = false ->
  userInsert env = Inserted e ->
  remote env
  = received (fst (Serve.serve toLowerCase key
                     (posted (trim (input (view s)))
                        (map history_entry (messages (view s))))
                     upstream)) ->
  exists t : jsstring,
    Serve.body (fst (Serve.serve toLowerCase key
                       (posted (trim (input (view s)))
                          (map history_entry (messages (view s))))
                       upstream))
    = Serve.ResponseJson t
    /\ t <> []
    /\ bot_replies (trace (db (submit toLowerCase env s)))
       = bot_replies (trace (db s)) ++ [t]
    /\ apiError (view (submit toLowerCase env s)) = [].
Proof.
  intros Hcs Hu Ht Hl Hi Hr.
  destruct (serve_valid_post toLowerCase key
              (posted (trim (input (view s))) (map history_entry (messages (view s))))
              upstream (trim (input (view s)))
              (Some (map (fun e => (role_name (fst e), snd e))
                         (map history_entry (messages (view s))))))
    as (t & r & Hs & Hne & _); try reflexivity; [exact Ht|].
  rewrite Hs in Hr |- *. cbn [fst Serve.body Serve.json_response] in *.
  unfold received in Hr. cbn [Serve.status Serve.body] in Hr.
  exists t. split; [reflexivity|]. split; [exact Hne|].
  destruct t as [|c t]; [congruence|].
  apply (verbatim_reply env s cs u e 200 c t); auto.
Qed.

End EndToEnd.

(** ** The edge function on concrete requests *)

Lemma serve_always_replies_witness :
  let req :=
    {| Serve.method := units "POST";
       Serve.json := Serve.Parsed (Some (units "I can't sleep")) None |} in
  let bad :=
    {| Serve.method := units "POST";
       Serve.json :=
         Serve.MalformedHistory (Some (units "I can't sleep"))
           (Some (units "conversationHistory is not iterable")) |} in
  Serve.status (fst (Serve.serve toLowerCase_ascii None req
                       (Serve.Answered 503 (Serve.Unreadable None)))) = 200
  /\ Serve.body (fst (Serve.serve toLowerCase_ascii None req
                        (Serve.Answered 503 (Serve.Unreadable None))))
     = Serve.ResponseJson Edge.sleep_text
  /\ Serve.status (fst (Serve.serve toLowerCase_ascii None bad
                          (Serve.Answered 200 (Serve.Generated None)))) = 200
  /\ snd (Serve.serve toLowerCase_ascii None bad
            (Serve.Answered 200 (Serve.Generated None))) = []
  /\ Serve.body (fst (Serve.serve toLowerCase_ascii None bad
                        (Serve.Answered 200 (Serve.Generated None))))
     = Serve.ResponseJson Edge.default_text.
Proof.
  cbv zeta.
  destruct (serve_always_replies toLowerCase_ascii None
              {| Serve.method := units "POST";
                 Serve.json := Serve.Parsed (Some (units "I can't sleep")) None |}
              (Serve.Answered 503 (Serve.Unreadable None))
              (units "I can't sleep") eq_refl
              (or_introl (ex_intro _ None eq_refl)) eq_refl)
    as (Hs & _).
  destruct (serve_always_replies toLowerCase_ascii None
              {| Serve.method := units "POST";
                 Serve.json :=
                   Serve.MalformedHistory (Some (units "I can't sleep"))
                     (Some (units "conversationHistory is not iterable")) |}
              (Serve.Answered 200 (Serve.Generated None))
              (units "I can't sleep") eq_refl
              (or_intror (ex_intro _ (Some (units "conversationHistory is not iterable"))
                            eq_refl))
              eq_refl)
    as (Hs' & _ & _ & _ & Hbad).
  split; [exact Hs|]. split; [vm_compute; reflexivity|].
  split; [exact Hs'|].
  rewrite (Hbad _ eq_refl). split; vm_compute; reflexivity.
Defined.

Lemma rescue_ignores_the_message_witness :
  fst (Serve.serve toLowerCase_ascii None
         (posted (units "I want to harm myself") [])
         (Serve.Unreachable (Some (units "error sending request"))))
  = fst (Serve.serve toLowerCase_ascii None
           (posted (units "good morning") [])
           (Serve.Unreachable (Some (units "error sending request")))).
Proof.
  apply (rescue_ignores_the_message toLowerCase_ascii None
           (posted (units "I want to harm myself") [])
           (posted (units "good morning") [])
           (units "I want to harm myself") (units "good morning")
           (Some []) (Some [])
           (Some (units "error sending request"))
           (Serve.Unreachable (Some (units "error sending request"))));
    try reflexivity.
  left. reflexivity.
Defined.

Lemma history_split_by_role_witness :
  exists r : Serve.InferenceRequest,
    snd (Serve.serve toLowerCase_ascii None
           (posted (units "hello") (map history_entry earlier))
           (Serve.Unreachable None)) = [r]
    /\ Serve.past_user_inputs r = [units "hi"]
    /\ Serve.generated_responses r = [acknowledgement].
Proof.
  destruct (history_split_by_role toLowerCase_ascii None earlier (units "hello")
              (Serve.Unreachable None))
    as (r & Hr & Hu & Hg & _); [reflexivity|].
  exists r. repeat split; assumption.
Defined.

Lemma edge_reply_reaches_the_user_witness :
  exists t : jsstring,
    bot_replies
      (trace (db (submit toLowerCase_ascii
                    (all_fine
                       (received
                          (fst (Serve.serve toLowerCase_ascii None
                                  (posted (units "hello") (map history_entry earlier))
                                  (Serve.Answered 503 (Serve.Unreadable None))))))
                    (app0 (units "hello")))))
    = [t]
    /\ t <> [].
Proof.
  destruct (edge_reply_reaches_the_user toLowerCase_ascii None
              (all_fine
                 (received
                    (fst (Serve.serve toLowerCase_ascii None
                            (posted (units "hello") (map history_entry earlier))
                            (Serve.Answered 503 (Serve.Unreadable None))))))
              (app0 (units "hello")) session7 {| User.id := 1 |} 3
              (Serve.Answered 503 (Serve.Unreadable None)))
    as (t & _ & Hne & Hb & _); try reflexivity.
  exists t. split; assumption.
Defined.

(** * Sessions *)

(** Runs the session handlers, as [run] does the turn. *)
Ltac run_sessions :=
  cbv beta iota zeta delta
    [clickNewChat createNewSession loadSessions currentSessionEffect onChange
     setSessions setCurrentSession setMessages setInput loadMessages
     select_messages emit update_view update_db bind ret fst snd
     db view chat_messages clock next_id trace
     user_ctx sessions currentSession messages input loading apiError listed].

Section Sessions.
Variable toLowerCase : jsstring -> jsstring.

Local Opaque units trim Client.generateFallbackResponse order_by_created_at of_session.



(** X17. The selected session stays listed: when the selected session,
    if any, is among the listed ones, it still is after the "New Chat"
    button, whatever the store answers, and after a turn; and after
    [loadSessions], run when no session is selected, the selected session
    (the first of the loaded ones, if any) is listed. *)
Theorem selection_stays_listed
  (env : turn) (s : app)
  (created : reply ChatSession.t) (load : select_outcome)
  (loaded : reply (list ChatSession.t)) :
  listed (view s) ->
  listed (view (clickNewChat created load s))
  /\ listed (view (submit toLowerCase env s))
  /\ (currentSession (view s) = None ->
      listed (view (snd (loadSessions loaded (view s) s)))).
Proof.
  intros H. split; [|split].
  - destruct s as [[rows now nid tr] [uc ss cur ms inp ld ae]].
    destruct uc as [u|], created as [d|], load; run_sessions;
      try exact H; now left.
  - open_state s env. unfold submit, sendMessage.
    cbn [view currentSession user_ctx input loading].
    destruct cur as [cs|], uc as [u|]; try exact H.
    destruct (truthy (trim inp)), ld; cbn [negb orb]; try exact H.
    answers; run; try destruct (ok status); exact H.
  - intros Hn. destruct s as [[rows now nid tr] [uc ss cur ms inp ld ae]].
    cbn [view currentSession] in Hn. subst cur.
    destruct loaded as [[|d l]|]; run_sessions; try exact I. now left.
Qed.

End Sessions.


Lemma selection_stays_listed_witness :
  listed (view (clickNewChat Failed Selected (app0 [])))
  /\ listed (view (submit toLowerCase_ascii (all_fine NetworkError) (app0 (units "hello")))).
Proof.
  destruct (selection_stays_listed toLowerCase_ascii (all_fine NetworkError)
              (app0 (units "hello")) Failed Selected Failed)
    as (H1 & H2 & _).
  - left. reflexivity.
  - split; [|exact H2]. left. reflexivity.
Defined.

(** * The profile form *)

(** X18. The profile form writes by role: every update the handler sends
    is on the row of the signed-in user; it carries [specialization] only
    for a doctor and [organization] only for an organisation, so never both,
    and neither for a patient or when no profile is loaded; without a
    signed-in user nothing is sent and the form is unchanged. *)
Theorem profile_update_by_role
  (user : option User.t) (profile : option ProfileForm.Profile)
  (now : jsstring) (answer : option jsstring) (f : ProfileForm.form) :
  Forall (fun req =>
            Some (ProfileForm.eq_id req) = option_map User.id user
            /\ ProfileForm.u_specialization (ProfileForm.payload req)
               = (if ProfileForm.is_doctor profile
                  then Some (ProfileForm.specializationText f) else None)
            /\ ProfileForm.u_organization (ProfileForm.payload req)
               = (if ProfileForm.is_ngo profile
                  then Some (ProfileForm.organizationText f) else None)
            /\ (ProfileForm.u_specialization (ProfileForm.payload req) = None
                \/ ProfileForm.u_organization (ProfileForm.payload req) = None))
         (snd (fst (ProfileForm.handleSubmit user profile now answer f)))
  /\ (List.length (snd (fst (ProfileForm.handleSubmit user profile now answer f)))
      = match user with Some _ => 1 | None => 0 end)%nat
  /\ (user = None ->
      ProfileForm.handleSubmit user profile now answer f = (f, [], false)).
Proof.
  destruct user as [u|]; cbn.
  - destruct answer; cbn;
      (split; [constructor; [|constructor]|split; [reflexivity|discriminate]]);
      cbn; repeat split;
      destruct profile as [p|]; cbn; auto;
      destruct (ProfileForm.profile_role p); cbn; auto.
  - split; [constructor|]. split; reflexivity.
Qed.

(** X19. Saving an unedited profile writes it back: when the form has
    taken the values of the loaded profile and the user submits it as it is,
    the update carries the stored name and biography unchanged, and, for the
    role that has one, the stored specialization or organization (the empty
    string when none was stored). *)
Theorem unedited_profile_round_trip
  (u : User.t) (p : ProfileForm.Profile)
  (now : jsstring) (answer : option jsstring) (f : ProfileForm.form) :
  snd (fst (ProfileForm.handleSubmit (Some u) (Some p) now answer
              (ProfileForm.syncFromProfile (Some p) f)))
  = [ {| ProfileForm.eq_id := User.id u;
         ProfileForm.payload :=
           {| ProfileForm.u_full_name := ProfileForm.full_name p;
              ProfileForm.u_bio := ProfileForm.bio p;
              ProfileForm.u_updated_at := now;
              ProfileForm.u_specialization :=
                match ProfileForm.profile_role p with
                | ProfileForm.doctor =>
                    Some (ProfileForm.or_empty (ProfileForm.specialization p))
                | _ => None
                end;
              ProfileForm.u_organization :=
                match ProfileForm.profile_role p with
                | ProfileForm.ngo =>
                    Some (ProfileForm.or_empty (ProfileForm.organization p))
                | _ => None
                end |} |} ].
Proof.
  destruct answer; cbn; destruct (ProfileForm.profile_role p); reflexivity.
Qed.

(** * A turn in flight *)

(** Runs the parts of a turn, as [run] does the whole. *)
Ltac run_steps :=
  cbv beta iota zeta delta
    [submit sendMessage callChatbotAPI fallback loadMessages select_messages
     insert setInput setLoading setApiError setMessages emit update_view
     update_db bind ret stored fst snd negb orb
     begin resume finish settle_insert settle_load settle_fetch
     db view chat_messages clock next_id trace
     user_ctx sessions currentSession messages input loading apiError
     userInsert firstLoad remote botInsert secondLoad
     NewMessage.session_id NewMessage.user_id NewMessage.message NewMessage.is_bot
     ChatMessage.id ChatMessage.session_id ChatMessage.user_id
     ChatMessage.message ChatMessage.is_bot ChatMessage.created_at].

Section InFlight.
Variable toLowerCase : jsstring -> jsstring.

Local Opaque units trim Client.generateFallbackResponse order_by_created_at of_session.

(** The parts make the whole: a turn begun and carried on to its end,
    which is at most five awaits away, is [sendMessage]. *)
Lemma turn_by_steps (env : turn) (s : app) :
  (let (p, s') := begin (view s) s in finish toLowerCase 5 env p s')
  = submit toLowerCase env s.
Proof.
  open_state s env. unfold submit, sendMessage, begin.
  cbn [view currentSession user_ctx input loading].
  destruct cur as [cs|], uc as [u|]; try reflexivity.
  destruct (truthy (trim inp)), ld; cbn [negb orb]; try reflexivity.
  answers; run_steps; try destruct (ok status); reflexivity.
Qed.

(** When [begin] starts a turn it sets the [loading] cell. *)
Lemma begin_sets_loading (s s' : app) (p : pending) :
  begin (view s) s = (Some p, s') -> loading (view s') = true.
Proof.
  destruct s as [[rows now nid tr] [uc ss cur ms inp ld ae]].
  unfold begin. cbn [view currentSession user_ctx input loading].
  destruct cur as [cs|], uc as [u|]; try discriminate.
  destruct (truthy (trim inp)), ld; cbn [negb orb]; try discriminate.
  run_steps. intros H. injection H as _ <-. reflexivity.
Qed.

(** An await that does not end the turn leaves the cell set. *)
Lemma resume_keeps_loading (env : turn) (s s' : app) (p p' : pending) :
  loading (view s) = true ->
  resume toLowerCase env p s = (Some p', s') ->
  loading (view s') = true.
Proof.
  intros Hl. open_state s env.
  destruct p; answers; run_steps; try destruct (ok status); cbv beta iota;
    intros H; try discriminate; injection H as _ <-; reflexivity.
Qed.

Lemma clickNewChat_keeps_loading
  (answer : reply ChatSession.t) (load : select_outcome) (s : app) :
  loading (view (clickNewChat answer load s)) = loading (view s).
Proof.
  destruct s as [[rows now nid tr] [uc ss cur ms inp ld ae]].
  destruct uc, answer, load; reflexivity.
Qed.

Lemma clickSession_keeps_loading
  (session : ChatSession.t) (load : select_outcome) (s : app) :
  loading (view (clickSession session load s)) = loading (view s).
Proof.
  destruct s as [[rows now nid tr] [uc ss cur ms inp ld ae]].
  destruct load; reflexivity.
Qed.

(** While a turn of the mounted instance is in flight, the [loading] cell
    is set. *)
Lemma in_flight_loading (p : pending) (s : app) :
  in_flight toLowerCase p s -> loading (view s) = true.
Proof.
  induction 1 as [s s' p Hb | env s s' p p' _ IH Hr | s p value _ IH
                 | s p answer load _ IH | s p session load _ IH].
  - exact (begin_sets_loading s s' p Hb).
  - exact (resume_keeps_loading env s s' p p' IH Hr).
  - destruct (onChange_state value s) as (_ & _ & _ & Hl & _). now rewrite Hl.
  - now rewrite clickNewChat_keeps_loading.
  - now rewrite clickSession_keeps_loading.
Qed.

(** C7, amended. Validation is a no-op: when the text is empty or made of
    white space only, or no session is selected, or a turn started by the
    mounted instance of the component is still in flight (begun, not yet at
    its end, whatever the user typed and whichever session was created or
    selected meanwhile), the handler returns at once and the application is
    unchanged: the table, the clock and the trace are as before (nothing was
    inserted, nothing was asked of the store or of the remote endpoint), and
    so is every state cell of the component. *)
Theorem sendMessage_rejects (env : turn) (s : app) :
  forallb isWhiteSpace (input (view s)) = true
  \/ currentSession (view s) = None
  \/ (exists p : pending, in_flight toLowerCase p s) ->
  sendMessage toLowerCase env (view s) s = (tt, s)
  /\ submit toLowerCase env s = s.
Proof.
  intros [H | [H | [p H]]]; apply guard_rejects; auto.
  right. right. exact (in_flight_loading p s H).
Qed.

End InFlight.

Lemma hello_is_in_flight : in_flight toLowerCase_ascii hello_pending hello_in_flight.
Proof.
  apply (in_flight_resumed toLowerCase_ascii (all_fine NetworkError)
           (snd hello_begun) hello_in_flight
           (AwaitingUserInsert session7 {| User.id := 1 |} (units "hello") earlier)
           hello_pending).
  - apply (in_flight_begun toLowerCase_ascii (app0 (units "hello"))). reflexivity.
  - reflexivity.
Qed.

Lemma sendMessage_rejects_witness :
  submit toLowerCase_ascii (all_fine NetworkError) (app0 (units "   "))
  = app0 (units "   ")
  /\ submit toLowerCase_ascii (all_fine NetworkError)
       {| db := world0; view := mounted (Some {| User.id := 1 |}) |}
     = {| db := world0; view := mounted (Some {| User.id := 1 |}) |}
  /\ submit toLowerCase_ascii (all_fine NetworkError)
       (onChange (units "and again") hello_in_flight)
     = onChange (units "and again") hello_in_flight.
Proof.
  split; [|split].
  - apply (sendMessage_rejects toLowerCase_ascii (all_fine NetworkError)
             (app0 (units "   "))).
    left. reflexivity.
  - apply (sendMessage_rejects toLowerCase_ascii (all_fine NetworkError)
             {| db := world0; view := mounted (Some {| User.id := 1 |}) |}).
    right. left. reflexivity.
  - apply (sendMessage_rejects toLowerCase_ascii (all_fine NetworkError)
             (onChange (units "and again") hello_in_flight)).
    right. right. exists hello_pending.
    apply in_flight_typed. exact hello_is_in_flight.
Defined.

(** C7, as stated, fails: the turn on "hello" is in flight for session 7
    (its user row is stored, it awaits the reload) when the user leaves the
    chat view and comes back; the new instance of the component selects
    session 7 again and its [loading] cell is unset, so the submission of
    "again" to the same session is accepted: a row is stored and the remote
    endpoint is called. When the first turn then goes on to its end, the
    table holds the two user rows before the two replies. *)
Lemma remounted_submission_counterexample :
  let env := all_fine NetworkError in
  let back :=
    onChange (units "again")
      (leaveAndReturn (Data [session7]) Selected hello_in_flight) in
  let after := submit toLowerCase_ascii env back in
  let finally :=
    finish_unmounted toLowerCase_ascii env hello_pending (view hello_in_flight) after in
  in_flight toLowerCase_ascii hello_pending hello_in_flight
  /\ pending_session hello_pending = ChatSession.id session7
  /\ currentSession (view back) = Some session7
  /\ after <> back
  /\ map ChatMessage.message (chat_messages (db back))
     = [units "hi"; acknowledgement; units "hello"]
  /\ map ChatMessage.message (chat_messages (db after))
     = [units "hi"; acknowledgement; units "hello"; units "again";
        Client.default_text]
  /\ fetches (trace (db after))
     = [(units "again",
         [(Role.user, units "hi"); (Role.assistant, acknowledgement);
          (Role.user, units "hello")])]
  /\ map ChatMessage.is_bot (chat_messages (db finally))
     = [false; true; false; false; true; true].
Proof.
  cbv zeta. split; [exact hello_is_in_flight|].
  repeat split; try (vm_compute; reflexivity).
  vm_compute. discriminate.
Qed.
